(** * The Dataform editor adapter ([vscode/extension.ts])

    The adapter is a thin layer of calls into two collaborators: the editor
    host (the [vscode] API) and the protocol client that talks to the
    external language process.  It is embedded here as a program over those
    calls:

    - every call the source makes is a constructor of [Call] (calls the
      callbacks and the format action make) or of [ActCall] (calls that only
      activation makes), with the type of its answer given by [resp];
    - a program is a tree of calls ([Prog]); [throw] and a promise that is
      never settled are leaves of that tree;
    - the host is a record [World]; it answers the calls and is changed by
      them.  What the user and the external process will do (the choice made
      in a prompt, the way the start-up handshake ends, the reply to a
      request) is data of the world, so that a run is a function of the
      initial world and the theorems quantify over every behaviour of the
      environment.  During one run the world changes only through the calls
      of the program itself.  *)

From Stdlib Require Import String Ascii List Bool Arith ZArith Lia.
From stdpp Require Import base option list strings gmap.

Open Scope string_scope.
Open Scope list_scope.
Open Scope nat_scope.

(** ** JavaScript values *)

#[warnings="-register-all"]
Inductive JsValue : Type :=
| JUndefined
| JNull
| JBool (b : bool)
| JNumber (z : Z)
| JString (s : string)
| JArray (items : list JsValue).

(** The test of an [if (...)] on a value. *)
Definition truthy (v : JsValue) : bool :=
  match v with
  | JUndefined | JNull => false
  | JBool b => b
  | JNumber z => negb (Z.eqb z 0)
  | JString s => negb (String.eqb s "")
  | JArray _ => true
  end.

(** [new Error(message)] *)
Record Error := new_Error { message : string }.

(** What a [throw] or a rejected promise carries. *)
Inductive Exn : Type :=
| TypeError (what : string)   (* a property read on [undefined] *)
| Reason (v : JsValue).       (* any other rejection *)

(** A promise, seen from the [await] on it: how it is settled. *)
Inductive Promise (X : Type) : Type :=
| Resolved (x : X)
| Rejected (reason : Exn)
| NeverSettles.
Arguments Resolved {X} x.
Arguments Rejected {X} reason.
Arguments NeverSettles {X}.

(** ** Host data *)

(** A resource identifier.  The path is kept as its list of segments. *)
Record Uri := mkUri {
  scheme : string;
  authority : string;
  path : list string
}.

(** [uri.fsPath] (on a host with [/] as separator): the path, [/] for the
    root, behind [//authority] for a file on a network share. *)
Definition fsPath (u : Uri) : string :=
  match path u with
  | [] => "/"
  | _ :: _ =>
      let p := fold_right (fun seg rest => "/" +:+ seg +:+ rest) "" (path u) in
      if String.eqb (scheme u) "file" && negb (String.eqb (authority u) "")
      then "//" +:+ authority u +:+ p
      else p
  end.

Record TextDocument := mkTextDocument {
  doc_uri : Uri;
  languageId : string
}.

Record TextEditor := mkTextEditor { document : TextDocument }.

Record WorkspaceFolder := mkWorkspaceFolder {
  folder_uri : Uri;
  folder_name : string;
  folder_index : nat
}.

Record FormattingOptions := mkFormattingOptions {
  tabSize : nat;
  insertSpaces : bool
}.

(** A cancellation token.  The source never looks inside it, it only hands
    it on; the host looks at [isCancellationRequested]. *)
Record CancellationToken := Token {
  token_id : nat;
  isCancellationRequested : bool
}.

(** Cancellation has been requested through the token, if there is one. *)
Definition cancelled (token : option CancellationToken) : bool :=
  match token with
  | Some t => isCancellationRequested t
  | None => false
  end.

(** [new vscode.RelativePattern(base, pattern)] *)
Record RelativePattern := mkRelativePattern {
  pattern_base : WorkspaceFolder;
  pattern : string
}.

(** The [exclude] argument of [findFiles]: [null], [undefined] or a glob. *)
Inductive Exclude : Type :=
| ExcludeNull
| ExcludeUndefined
| ExcludeGlob (g : string).

Inductive ConfigurationTarget : Type :=
| Global
| Workspace
| WorkspaceFolderTarget.

Inductive TransportKind : Type := stdio | ipc | pipe | socket.

Record NodeModule := mkNodeModule {
  nm_module : string;
  nm_transport : TransportKind;
  nm_execArgv : list string       (* [options.execArgv], empty when absent *)
}.

Record ServerOptions := mkServerOptions {
  so_run : NodeModule;
  so_debug : NodeModule
}.

Record DocumentFilter := mkDocumentFilter {
  filter_scheme : string;
  filter_language : string
}.

Inductive FileSystemWatcher : Type := Watcher (glob : string).

Record LanguageClientOptions := mkLanguageClientOptions {
  documentSelector : list DocumentFilter;
  synchronize_fileEvents : FileSystemWatcher
}.

(** The object built by [new LanguageClient(...)].  Its mutable part (the
    connection state and the table of handlers) is kept in the world. *)
Record LanguageClient := mkLanguageClient {
  client_id : string;
  client_name : string;
  client_serverOptions : ServerOptions;
  client_options : LanguageClientOptions
}.

Inductive Disposable : Type :=
| CommandRegistration (command : string)
| FormatterRegistration (language : string)
| ClientRun.

(** ** Paths and globs of the host *)

Definition string_list_eqb (a b : list string) : bool :=
  bool_decide (a = b).

Fixpoint is_prefix (p l : list string) : bool :=
  match p, l with
  | [], _ => true
  | x :: p', y :: l' => String.eqb x y && is_prefix p' l'
  | _ :: _, [] => false
  end.

(** [u] lies in the folder [root] (or is [root] itself). *)
Definition uri_under (root u : Uri) : bool :=
  String.eqb (scheme root) (scheme u)
  && String.eqb (authority root) (authority u)
  && is_prefix (path root) (path u).

(** The segments of [u] below [root]. *)
Definition segments_below (root u : Uri) : list string :=
  drop (length (path root)) (path u).

Definition join_segments (segs : list string) : string :=
  match segs with
  | [] => ""
  | s :: rest => fold_left (fun acc seg => acc +:+ "/" +:+ seg) rest s
  end.

(** The path of [u] relative to the folder [root]. *)
Definition relativeTo (root u : Uri) : string :=
  join_segments (segments_below root u).

(** The file [name] directly under the folder [root]. *)
Definition child (root : Uri) (name : string) : Uri :=
  mkUri (scheme root) (authority root) (app (path root) [name]).

(** Splitting at a separator character. *)
Fixpoint split_at (sep : ascii) (s : string) (cur : string) : list string :=
  match s with
  | EmptyString => [cur]
  | String c rest =>
      if Ascii.eqb c sep then cur :: split_at sep rest ""
      else split_at sep rest (cur +:+ String c EmptyString)
  end.

Definition append_last (alts : list string) (c : ascii) : list string :=
  match reverse alts with
  | [] => [String c EmptyString]
  | a :: before => app (reverse before) [a +:+ String c EmptyString]
  end.

(** Brace expansion of a glob: [outs] are the expansions of the text read so
    far, [group] the alternatives of the brace group being read, if any.
    This is the fragment of the host's glob language that the source uses:
    literal text and brace groups without nesting. *)
Fixpoint expand_braces (s : string) (outs : list string)
    (group : option (list string)) : list string :=
  match s with
  | EmptyString => outs
  | String c rest =>
      match group with
      | None =>
          if Ascii.eqb c "{" then expand_braces rest outs (Some [""])
          else expand_braces rest
                 (map (fun o => o +:+ String c EmptyString) outs) None
      | Some alts =>
          if Ascii.eqb c "}" then
            expand_braces rest
              (flat_map (fun o => map (fun a => o +:+ a) alts) outs) None
          else if Ascii.eqb c "," then
            expand_braces rest outs (Some (app alts [""]))
          else expand_braces rest outs (Some (append_last alts c))
      end
  end.

Definition glob_alternatives (g : string) : list (list string) :=
  map (fun alt => split_at "/" alt "") (expand_braces g [""] None).

(** A relative path matches a glob when it is one of its alternatives. *)
Definition glob_matches (g : string) (rel : list string) : bool :=
  existsb (string_list_eqb rel) (glob_alternatives g).

Definition pattern_matches (p : RelativePattern) (u : Uri) : bool :=
  uri_under (folder_uri (pattern_base p)) u
  && glob_matches (pattern p) (segments_below (folder_uri (pattern_base p)) u).

(** ** Programs over host calls *)

Section Programs.
Context {call : Type} (resp : call -> Type).

(** A program performs a call and continues with its answer, returns,
    throws, or stays suspended at an [await] that is never resumed. *)
Inductive Prog (R : Type) : Type :=
| Ret (r : R)
| Throw (e : Exn)
| Suspend
| Vis (c : call) (k : resp c -> Prog R).
End Programs.

Arguments Ret {call resp R} r.
Arguments Throw {call resp R} e.
Arguments Suspend {call resp R}.
Arguments Vis {call resp R} c k.

Section ProgramOps.
Context {call : Type} {resp : call -> Type}.

Fixpoint bind {A B : Type} (p : Prog resp A) (k : A -> Prog resp B)
  : Prog resp B :=
  match p with
  | Ret a => k a
  | Throw e => Throw e
  | Suspend => Suspend
  | Vis c h => Vis c (fun x => bind (h x) k)
  end.

(** One call, returning its answer. *)
Definition perform (c : call) : Prog resp (resp c) := Vis c Ret.

(** [await p] *)
Definition await {X : Type} (p : Promise X) : Prog resp X :=
  match p with
  | Resolved x => Ret x
  | Rejected e => Throw e
  | NeverSettles => Suspend
  end.

(** A property read on a value that may be [undefined]. *)
Definition deref {X : Type} (v : option X) (what : string) : Prog resp X :=
  match v with
  | Some x => Ret x
  | None => Throw (TypeError what)
  end.
End ProgramOps.

Notation "x <- p ;; k" := (bind p (fun x => k))
  (at level 100, p at next level, right associativity).

(** How a run ends. *)
Inductive Outcome (R : Type) : Type :=
| Returned (r : R)
| Thrown (e : Exn)
| Pending.
Arguments Returned {R} r.
Arguments Thrown {R} e.
Arguments Pending {R}.

(** A run of a program against a host: [answer] is what the host replies to
    a call, [effect] how the call changes the host.  The trace lists the
    calls made, each with the state of the host when it was made. *)
Section Runs.
Context {call : Type} {resp : call -> Type} {W : Type}.
Variable answer : forall c : call, W -> resp c.
Variable effect : call -> W -> W.

Fixpoint outcome {R : Type} (p : Prog resp R) (w : W) : Outcome R :=
  match p with
  | Ret r => Returned r
  | Throw e => Thrown e
  | Suspend => Pending
  | Vis c k => outcome (k (answer c w)) (effect c w)
  end.

Fixpoint final {R : Type} (p : Prog resp R) (w : W) : W :=
  match p with
  | Vis c k => final (k (answer c w)) (effect c w)
  | _ => w
  end.

Fixpoint trace {R : Type} (p : Prog resp R) (w : W) : list (W * call) :=
  match p with
  | Vis c k => (w, c) :: trace (k (answer c w)) (effect c w)
  | _ => []
  end.

Definition calls {R : Type} (p : Prog resp R) (w : W) : list call :=
  map snd (trace p w).
End Runs.

(** ** The calls of the callbacks and of the format action *)

Inductive Call : Type :=
| GetActiveTextEditor
    (* vscode.window.activeTextEditor *)
| GetWorkspaceFolder (u : Uri)
    (* vscode.workspace.getWorkspaceFolder(u) *)
| FindFiles (include : RelativePattern) (exclude : Exclude)
    (maxResults : option nat) (token : option CancellationToken)
    (* vscode.workspace.findFiles(include, exclude, maxResults, token) *)
| AsRelativePath (u : Uri) (includeWorkspaceFolder : bool)
    (* vscode.workspace.asRelativePath(u, includeWorkspaceFolder) *)
| ShowErrorMessage (msg : string)
    (* vscode.window.showErrorMessage(msg) *)
| ShowInformationMessage (msg : string) (items : list string)
    (* vscode.window.showInformationMessage(msg, ...items) *)
| GetClient
    (* the module variable [client] *)
| SendRequest (method : string) (params : option JsValue)
    (token : option CancellationToken)
    (* client.sendRequest(method, params, token) *)
| GetConfiguration (section key : string)
    (* workspace.getConfiguration(section).get(key) *)
| UpdateConfiguration (section key : string) (value : JsValue)
    (target : ConfigurationTarget)
    (* workspace.getConfiguration(section).update(key, value, target) *)
| GetExtension (id : string)
    (* vscode.extensions.getExtension(id) *)
| OpenExternal (target : string).
    (* vscode.env.openExternal(vscode.Uri.parse(target)) *)

Definition resp (c : Call) : Type :=
  match c with
  | GetActiveTextEditor => option TextEditor
  | GetWorkspaceFolder _ => option WorkspaceFolder
  | FindFiles _ _ _ _ => Promise (list Uri)
  | AsRelativePath _ _ => string
  | ShowErrorMessage _ => Promise (option string)
  | ShowInformationMessage _ _ => Promise (option string)
  | GetClient => option LanguageClient
  | SendRequest _ _ _ => Promise JsValue
  | GetConfiguration _ _ => JsValue
  | UpdateConfiguration _ _ _ _ => Promise unit
  | GetExtension _ => option string
  | OpenExternal _ => Promise bool
  end.

Definition call (c : Call) : Prog resp (resp c) := perform c.

(** ** The host *)

(** What the user does with a prompt that offers items: pick the item at an
    index, dismiss the prompt, or leave it open for good. *)
Inductive Reaction : Type :=
| Picks (index : nat)
| Dismisses
| LeavesOpen.

(** The part of the host that the adapter only reads. *)
Record Environment := mkEnvironment {
  activeTextEditor : option TextEditor;
  workspaceFolders : list WorkspaceFolder;
  files : list Uri;                      (* the files that exist *)
  defaultExcluded : Uri -> bool;         (* the [files.exclude] setting *)
  extensions : list string;              (* identifiers of installed extensions *)
  userPick : Reaction;                   (* what the user does with a prompt *)
  handshake : Promise unit;              (* how the start of the external
                                            process ends *)
  server : string -> option JsValue -> Promise JsValue
                                         (* how a request ends, as the
                                            [await] on it sees it: a request
                                            the client refuses is rejected *)
}.

(** Settings, by scope; a narrower scope overrides a wider one. *)
Record Configuration := mkConfiguration {
  cfg_default : gmap string JsValue;
  cfg_global : gmap string JsValue;
  cfg_workspace : gmap string JsValue;
  cfg_folder : gmap string JsValue
}.

Inductive ClientState : Type :=
| Initial
| Starting
| Running
| StartFailed (e : Exn).

Definition Provider : Type :=
  TextDocument -> FormattingOptions -> CancellationToken -> Prog resp JsValue.

Record World := mkWorld {
  env : Environment;
  configuration : Configuration;
  client : option LanguageClient;        (* [let client: LanguageClient] *)
  clientState : ClientState;
  notificationHandlers : gmap string (string -> Prog resp unit);
  commands : gmap string (Prog resp unit);
  formattingProviders : gmap string Provider;
  subscriptions : list Disposable        (* [context.subscriptions] *)
}.

Definition set_configuration (c : Configuration) (w : World) : World :=
  mkWorld (env w) c (client w) (clientState w) (notificationHandlers w)
    (commands w) (formattingProviders w) (subscriptions w).

Definition set_clientState (s : ClientState) (w : World) : World :=
  mkWorld (env w) (configuration w) (client w) s (notificationHandlers w)
    (commands w) (formattingProviders w) (subscriptions w).

Definition set_notificationHandlers
    (h : gmap string (string -> Prog resp unit)) (w : World) : World :=
  mkWorld (env w) (configuration w) (client w) (clientState w) h
    (commands w) (formattingProviders w) (subscriptions w).

Definition set_commands (c : gmap string (Prog resp unit)) (w : World)
  : World :=
  mkWorld (env w) (configuration w) (client w) (clientState w)
    (notificationHandlers w) c (formattingProviders w) (subscriptions w).

Definition set_formattingProviders (p : gmap string Provider) (w : World)
  : World :=
  mkWorld (env w) (configuration w) (client w) (clientState w)
    (notificationHandlers w) (commands w) p (subscriptions w).

Definition set_subscriptions (s : list Disposable) (w : World) : World :=
  mkWorld (env w) (configuration w) (client w) (clientState w)
    (notificationHandlers w) (commands w) (formattingProviders w) s.

(** A new client object is bound to [client]: it has not been started and
    has no handlers. *)
Definition assign_client (c : LanguageClient) (w : World) : World :=
  mkWorld (env w) (configuration w) (Some c) Initial ∅
    (commands w) (formattingProviders w) (subscriptions w).

(** [vscode.workspace.getWorkspaceFolder(u)]: the workspace folder that
    contains [u]; of nested folders, the innermost. *)
Definition deeper (f g : WorkspaceFolder) : bool :=
  length (path (folder_uri g)) <? length (path (folder_uri f)).

Fixpoint getWorkspaceFolder (folders : list WorkspaceFolder) (u : Uri)
  : option WorkspaceFolder :=
  match folders with
  | [] => None
  | f :: rest =>
      let best := getWorkspaceFolder rest u in
      if uri_under (folder_uri f) u then
        match best with
        | Some g => if deeper g f then Some g else Some f
        | None => Some f
        end
      else best
  end.

(** [vscode.workspace.asRelativePath(u, includeWorkspaceFolder)]: the path of
    [u] relative to its workspace folder; the input when it has none. *)
Definition asRelativePath (e : Environment) (u : Uri)
    (includeWorkspaceFolder : bool) : string :=
  match getWorkspaceFolder (workspaceFolders e) u with
  | Some f =>
      if includeWorkspaceFolder
      then folder_name f +:+ "/" +:+ relativeTo (folder_uri f) u
      else relativeTo (folder_uri f) u
  | None => fsPath u
  end.

Definition excluded (e : Environment) (include : RelativePattern)
    (exclude : Exclude) (u : Uri) : bool :=
  match exclude with
  | ExcludeNull => false
  | ExcludeUndefined => defaultExcluded e u
  | ExcludeGlob g =>
      glob_matches g (segments_below (folder_uri (pattern_base include)) u)
  end.

(** [vscode.workspace.findFiles]: the existing files that match [include]
    and are not excluded, at most [maxResults] of them; nothing when
    cancellation has been requested through the token. *)
Definition findFiles (e : Environment) (include : RelativePattern)
    (exclude : Exclude) (maxResults : option nat)
    (token : option CancellationToken) : list Uri :=
  if cancelled token then []
  else
    let found :=
      List.filter
        (fun u =>
           pattern_matches include u && negb (excluded e include exclude u))
        (files e) in
    match maxResults with
    | Some n => take n found
    | None => found
    end.

Definition setting_name (section key : string) : string :=
  section +:+ "." +:+ key.

(** [getConfiguration(section).get(key)]: the value in the narrowest scope
    that has one. *)
Definition getConfiguration (c : Configuration) (section key : string)
  : JsValue :=
  let k := setting_name section key in
  match cfg_folder c !! k with
  | Some v => v
  | None =>
      match cfg_workspace c !! k with
      | Some v => v
      | None =>
          match cfg_global c !! k with
          | Some v => v
          | None => default JUndefined (cfg_default c !! k)
          end
      end
  end.

(** [getConfiguration(section).update(key, value, target)] *)
Definition updateConfiguration (c : Configuration) (section key : string)
    (value : JsValue) (target : ConfigurationTarget) : Configuration :=
  let k := setting_name section key in
  match target with
  | Global =>
      mkConfiguration (cfg_default c) (<[k := value]> (cfg_global c))
        (cfg_workspace c) (cfg_folder c)
  | Workspace =>
      mkConfiguration (cfg_default c) (cfg_global c)
        (<[k := value]> (cfg_workspace c)) (cfg_folder c)
  | WorkspaceFolderTarget =>
      mkConfiguration (cfg_default c) (cfg_global c) (cfg_workspace c)
        (<[k := value]> (cfg_folder c))
  end.

(** The item picked in a prompt that offers [items]. *)
Definition picked (e : Environment) (items : list string) : option string :=
  match userPick e with
  | Picks i => items !! i
  | Dismisses | LeavesOpen => None
  end.

(** The promise of a message: a message without items settles, a prompt with
    items settles when the user picks an item or dismisses it. *)
Definition message_reply (e : Environment) (items : list string)
  : Promise (option string) :=
  match items, userPick e with
  | _ :: _, LeavesOpen => NeverSettles
  | _, _ => Resolved (picked e items)
  end.

Definition answer (c : Call) (w : World) : resp c :=
  match c as c0 return resp c0 with
  | GetActiveTextEditor => activeTextEditor (env w)
  | GetWorkspaceFolder u => getWorkspaceFolder (workspaceFolders (env w)) u
  | FindFiles include exclude maxResults token =>
      Resolved (findFiles (env w) include exclude maxResults token)
  | AsRelativePath u b => asRelativePath (env w) u b
  | ShowErrorMessage _ => message_reply (env w) []
  | ShowInformationMessage _ items => message_reply (env w) items
  | GetClient => client w
  | SendRequest method params _ => server (env w) method params
  | GetConfiguration section key =>
      getConfiguration (configuration w) section key
  | UpdateConfiguration _ _ _ _ => Resolved tt
  | GetExtension id =>
      if bool_decide (id ∈ extensions (env w)) then Some id else None
  | OpenExternal _ => Resolved true
  end.

Definition effect (c : Call) (w : World) : World :=
  match c with
  | UpdateConfiguration section key value target =>
      set_configuration
        (updateConfiguration (configuration w) section key value target) w
  | _ => w
  end.

(** ** The calls of activation *)

Inductive ActCall : Type :=
| Host (c : Call)
| CreateFileSystemWatcher (glob : string)
    (* workspace.createFileSystemWatcher(glob) *)
| AssignClient (c : LanguageClient)
    (* client = c *)
| RegisterCommand (command : string) (callback : Prog resp unit)
    (* vscode.commands.registerCommand(command, callback) *)
| RegisterDocumentFormattingEditProvider (language : string)
    (provider : Provider)
    (* vscode.languages.registerDocumentFormattingEditProvider *)
| PushSubscriptions (ds : list Disposable)
    (* context.subscriptions.push(...ds) *)
| ClientStart
    (* client.start() *)
| ClientOnReady
    (* client.onReady() *)
| ClientOnNotification (method : string) (handler : string -> Prog resp unit).
    (* client.onNotification(method, handler) *)

Definition aresp (c : ActCall) : Type :=
  match c with
  | Host c => resp c
  | CreateFileSystemWatcher _ => FileSystemWatcher
  | AssignClient _ => unit
  | RegisterCommand _ _ => Disposable
  | RegisterDocumentFormattingEditProvider _ _ => Disposable
  | PushSubscriptions _ => nat
  | ClientStart => Disposable
  | ClientOnReady => Promise unit
  | ClientOnNotification _ _ => unit
  end.

Definition acall (c : ActCall) : Prog aresp (aresp c) := perform c.

(** The state of the client once the pending start has ended. *)
Definition settle (h : Promise unit) : ClientState :=
  match h with
  | Resolved _ => Running
  | Rejected e => StartFailed e
  | NeverSettles => Starting
  end.

Definition aanswer (c : ActCall) (w : World) : aresp c :=
  match c as c0 return aresp c0 with
  | Host c => answer c w
  | CreateFileSystemWatcher g => Watcher g
  | AssignClient _ => tt
  | RegisterCommand command _ => CommandRegistration command
  | RegisterDocumentFormattingEditProvider language _ =>
      FormatterRegistration language
  | PushSubscriptions ds => length (subscriptions w ++ ds)
  | ClientStart => ClientRun
  | ClientOnReady =>
      match clientState w with
      | Initial => NeverSettles
      | Starting => handshake (env w)
      | Running => Resolved tt
      | StartFailed e => Rejected e
      end
  | ClientOnNotification _ _ => tt
  end.

Definition aeffect (c : ActCall) (w : World) : World :=
  match c with
  | Host c => effect c w
  | CreateFileSystemWatcher _ => w
  | AssignClient c => assign_client c w
  | RegisterCommand command callback =>
      set_commands (<[command := callback]> (commands w)) w
  | RegisterDocumentFormattingEditProvider language provider =>
      set_formattingProviders
        (<[language := provider]> (formattingProviders w)) w
  | PushSubscriptions ds => set_subscriptions (subscriptions w ++ ds) w
  | ClientStart =>
      match clientState w with
      | Initial => set_clientState Starting w
      | _ => w
      end
  | ClientOnReady =>
      match clientState w with
      | Starting => set_clientState (settle (handshake (env w))) w
      | _ => w
      end
  | ClientOnNotification method handler =>
      set_notificationHandlers
        (<[method := handler]> (notificationHandlers w)) w
  end.

(** The external process emits a notification: the handler registered for
    its method, if any, runs on its parameter. *)
Definition notified (method : string) (param : string) (w : World)
  : Prog resp unit :=
  match notificationHandlers w !! method with
  | Some handler => handler param
  | None => Ret tt
  end.

(** ** The adapter *)

(** The three errors of the project locator. *)
Definition NoWorkspace : Error :=
  new_Error "Dataform files outside of a workspace are not supported.".

Definition RemoteUnsupported : Error :=
  new_Error "Remote Dataform files are not supported.".

Definition MissingProjectMarker : Error :=
  new_Error
    "Workspaces without workflow_settings.yaml (or dataform.json) are not supported.".

(** [selection === s] *)
Definition strict_eq (selection : option string) (s : string) : bool :=
  match selection with
  | Some t => String.eqb t s
  | None => false
  end.

(** Gets the file system path to the current workspace root if it's a local
    Dataform project directory, or an error otherwise. *)
Definition getProjectDirPath (token : option CancellationToken)
  : Prog resp (string + Error) :=
  editor <- call GetActiveTextEditor ;;
  editor <- deref editor "document" ;;
  folder <- call (GetWorkspaceFolder (doc_uri (document editor))) ;;
  match folder with
  | None => Ret (inr NoWorkspace)
  | Some folder =>
      if negb (String.eqb (scheme (folder_uri folder)) "file")
      then Ret (inr RemoteUnsupported)
      else
        let yamlPattern :=
          mkRelativePattern folder "{workflow_settings.yaml,dataform.json}" in
        search <- call (FindFiles yamlPattern ExcludeNull (Some 1) token) ;;
        yamls <- await search ;;
        if length yamls =? 0
        then Ret (inr MissingProjectMarker)
        else Ret (inl (fsPath (folder_uri folder)))
  end.

Definition provideDocumentFormattingEdits (_document : TextDocument)
    (_options : FormattingOptions) (token : CancellationToken)
  : Prog resp JsValue :=
  projectDir <- getProjectDirPath (Some token) ;;
  match projectDir with
  | inr error =>
      shown <- call (ShowErrorMessage (message error)) ;;
      _ <- await shown ;;
      Ret JUndefined
  | inl projectDir =>
      editor <- call GetActiveTextEditor ;;
      editor <- deref editor "document" ;;
      action <- call (AsRelativePath (doc_uri (document editor)) false) ;;
      c <- call GetClient ;;
      _ <- deref c "sendRequest" ;;
      reply <-
        call (SendRequest "format"
                (Some (JArray [JString projectDir; JString action]))
                (Some token)) ;;
      _ <- await reply ;;
      Ret JUndefined
  end.

(** The callback of the [dataform.compile] command. *)
Definition compile_callback : Prog resp unit :=
  c <- call GetClient ;;
  _ <- deref c "sendRequest" ;;
  _ <- call (SendRequest "compile" None None) ;;
  Ret tt.

(** The three notification handlers. *)
Definition on_error (errorMessage : string) : Prog resp unit :=
  _ <- call (ShowErrorMessage errorMessage) ;; Ret tt.

Definition on_info (message : string) : Prog resp unit :=
  _ <- call (ShowInformationMessage message []) ;; Ret tt.

Definition on_success (message : string) : Prog resp unit :=
  _ <- call (ShowInformationMessage message []) ;; Ret tt.

Record ExtensionContext := mkExtensionContext { extensionPath : string }.

Definition asAbsolutePath (context : ExtensionContext) (relativePath : string)
  : string :=
  extensionPath context +:+ "/" +:+ relativePath.

(** A method call on the module variable [client]. *)
Definition on_client (c : ActCall) : Prog aresp (aresp c) :=
  cl <- acall (Host GetClient) ;;
  _ <- deref cl "client" ;;
  acall c.

Definition advisory_text : string :=
  "The Dataform extension recommends installing the YAML extension for workflow_settings.yaml support.".

(** [activate], first part: the client is built and bound to [client], the
    command and the formatter are registered, the client is started. *)
Definition launch (context : ExtensionContext) : Prog aresp unit :=
  let serverModule := asAbsolutePath context "server.js" in
  let debugOptions := ["--nolazy"; "--inspect=6009"] in
  let serverOptions :=
    mkServerOptions (mkNodeModule serverModule ipc [])
                    (mkNodeModule serverModule ipc debugOptions) in
  watcher <- acall (CreateFileSystemWatcher "**/.clientrc") ;;
  let clientOptions :=
    mkLanguageClientOptions [mkDocumentFilter "file" "sqlx"] watcher in
  _ <- acall (AssignClient
                (mkLanguageClient "dataformLanguageServer"
                   "Dataform Language Server" serverOptions clientOptions)) ;;
  compile <- acall (RegisterCommand "dataform.compile" compile_callback) ;;
  formatter <-
    acall (RegisterDocumentFormattingEditProvider "sqlx"
             provideDocumentFormattingEdits) ;;
  _ <- acall (PushSubscriptions [compile; formatter]) ;;
  _ <- on_client ClientStart ;;
  Ret tt.

(** [activate], after the wait: the three notification handlers. *)
Definition relay : Prog aresp unit :=
  _ <- on_client (ClientOnNotification "error" on_error) ;;
  _ <- on_client (ClientOnNotification "info" on_info) ;;
  _ <- on_client (ClientOnNotification "success" on_success) ;;
  Ret tt.

(** [activate], last part: recommend the YAML extension if not installed. *)
Definition recommend : Prog aresp unit :=
  flag <- acall (Host (GetConfiguration "dataform" "recommendYamlExtension")) ;;
  if truthy flag then
    yamlExtension <- acall (Host (GetExtension "redhat.vscode-yaml")) ;;
    match yamlExtension with
    | Some _ => Ret tt
    | None =>
        prompt <-
          acall (Host (ShowInformationMessage advisory_text
                         ["Install"; "Don't show again"])) ;;
        selection <- await prompt ;;
        if strict_eq selection "Install" then
          _ <- acall (Host (OpenExternal "vscode:extension/redhat.vscode-yaml")) ;;
          Ret tt
        else if strict_eq selection "Don't show again" then
          _ <- acall (Host (UpdateConfiguration "dataform"
                              "recommendYamlExtension" (JBool false) Global)) ;;
          Ret tt
        else Ret tt
    end
  else Ret tt.

Definition activate (context : ExtensionContext) : Prog aresp unit :=
  _ <- launch context ;;
  (* wait for client to be ready before setting up notification handlers *)
  ready <- on_client ClientOnReady ;;
  _ <- await ready ;;
  _ <- relay ;;
  recommend.

(** ** Sample hosts *)

Definition project_root : Uri := mkUri "file" "" ["home"; "me"; "project"].

Definition project_folder : WorkspaceFolder :=
  mkWorkspaceFolder project_root "project" 0.

Definition remote_folder : WorkspaceFolder :=
  mkWorkspaceFolder (mkUri "vscode-remote" "ssh" ["srv"; "project"]) "remote" 1.

Definition editor_on (u : Uri) : option TextEditor :=
  Some (mkTextEditor (mkTextDocument u "sqlx")).

Definition sample_doc : Uri :=
  mkUri "file" "" ["home"; "me"; "project"; "definitions"; "a.sqlx"].

Definition sample_env (editor : option TextEditor) (existing : list Uri)
    (pick : Reaction) (start : Promise unit) : Environment :=
  mkEnvironment editor [project_folder; remote_folder] existing
    (fun _ => false) [] pick start
    (fun _ _ => Resolved (JString "formatted")).

Definition sample_settings (flag : bool) : Configuration :=
  mkConfiguration {[ "dataform.recommendYamlExtension" := JBool flag ]} ∅ ∅ ∅.

Definition sample_client : LanguageClient :=
  mkLanguageClient "dataformLanguageServer" "Dataform Language Server"
    (mkServerOptions (mkNodeModule "/ext/server.js" ipc [])
                     (mkNodeModule "/ext/server.js" ipc []))
    (mkLanguageClientOptions [] (Watcher "**/.clientrc")).

(** A host in which the extension has not been activated. *)
Definition fresh_world (e : Environment) (flag : bool) : World :=
  mkWorld e (sample_settings flag) None Initial ∅ ∅ ∅ [].

(** A host in which [client] is bound to a running client. *)
Definition live_world (e : Environment) : World :=
  mkWorld e (sample_settings true) (Some sample_client) Running ∅ ∅ ∅ [].

Definition sample_document : TextDocument := mkTextDocument sample_doc "sqlx".

Definition sample_options : FormattingOptions := mkFormattingOptions 2 true.

(** A project with the deprecated marker file, and an editor on one of its
    files. *)
Definition project_world : World :=
  live_world
    (sample_env (editor_on sample_doc) [child project_root "dataform.json"]
       Dismisses (Resolved tt)).

(** The same folder without a marker file. *)
Definition bare_world : World :=
  live_world (sample_env (editor_on sample_doc) [] Dismisses (Resolved tt)).

(** An editor on a file outside of every workspace folder. *)
Definition stray_world : World :=
  live_world
    (sample_env (editor_on (mkUri "file" "" ["tmp"; "scratch.sqlx"])) []
       Dismisses (Resolved tt)).

(** An editor on a file of the remote folder. *)
Definition remote_world : World :=
  live_world
    (sample_env
       (editor_on (mkUri "vscode-remote" "ssh" ["srv"; "project"; "a.sqlx"]))
       [] Dismisses (Resolved tt)).

(** No active editor. *)
Definition idle_world : World :=
  live_world (sample_env None [] Dismisses (Resolved tt)).

(** Before activation; the user will pick the second item of a prompt. *)
Definition first_run_world : World :=
  fresh_world (sample_env None [] (Picks 1) (Resolved tt)) true.

(** Before activation; the external process never completes its start. *)
Definition stalled_world : World :=
  fresh_world (sample_env None [] Dismisses NeverSettles) true.

Definition sample_context : ExtensionContext := mkExtensionContext "/ext".

(** The user will pick the first item of a prompt. *)
Definition installing_world : World :=
  fresh_world (sample_env None [] (Picks 0) (Resolved tt)) true.

(** The user will dismiss a prompt. *)
Definition dismissing_world : World :=
  fresh_world (sample_env None [] Dismisses (Resolved tt)) true.

(** The workspace has its own value of the flag; the user will pick the
    second item of a prompt. *)
Definition overridden_world : World :=
  mkWorld (sample_env None [] (Picks 1) (Resolved tt))
    (mkConfiguration ∅ ∅ {[ "dataform.recommendYamlExtension" := JBool true ]} ∅)
    None Initial ∅ ∅ ∅ [].

(** The start of the external process fails. *)
Definition failing_world : World :=
  fresh_world
    (sample_env None [] Dismisses (Rejected (Reason (JString "spawn failed"))))
    true.

(** The user will leave a prompt open. *)
Definition waiting_world : World :=
  fresh_world (sample_env None [] LeavesOpen (Resolved tt)) true.

(** A token through which cancellation has been requested. *)
Definition cancelled_token : CancellationToken := Token 8 true.

(** ** Observations on traces *)

(** A call that shows a message to the user. *)
Definition is_message (c : Call) : bool :=
  match c with
  | ShowErrorMessage _ | ShowInformationMessage _ _ => true
  | _ => false
  end.

(** A call that sends a request to the external process. *)
Definition is_request (c : Call) : bool :=
  match c with
  | SendRequest _ _ _ => true
  | _ => false
  end.

Definition marker_glob : string := "{workflow_settings.yaml,dataform.json}".

(** A call of activation that shows a message to the user. *)
Definition is_host_message (c : ActCall) : bool :=
  match c with
  | Host c => is_message c
  | _ => false
  end.

(** A call that registers a notification handler. *)
Definition is_registration (c : ActCall) : bool :=
  match c with
  | ClientOnNotification _ _ => true
  | _ => false
  end.

Definition flag_name : string := "dataform.recommendYamlExtension".

(** The advisory of an activation in [w] shows its prompt and the user
    leaves it open. *)
Definition awaits_answer (w : World) : bool :=
  truthy (getConfiguration (configuration w)
            "dataform" "recommendYamlExtension")
  && negb (bool_decide ("redhat.vscode-yaml" ∈ extensions (env w)))
  && match userPick (env w) with
     | LeavesOpen => true
     | _ => false
     end.

(** A call of activation that opens an external link. *)
Definition is_open_external (c : ActCall) : bool :=
  match c with
  | Host (OpenExternal _) => true
  | _ => false
  end.

(** A call of activation that writes a setting. *)
Definition is_settings_write (c : ActCall) : bool :=
  match c with
  | Host (UpdateConfiguration _ _ _ _) => true
  | _ => false
  end.

(** * Properties *)

(** ** Runs of sequenced programs *)

Section RunLaws.
Context {call : Type} {resp : call -> Type} {W : Type}.
Variable answer : forall c : call, W -> resp c.
Variable effect : call -> W -> W.

Lemma outcome_bind {A B : Type} (p : Prog resp A) (k : A -> Prog resp B) w :
  outcome answer effect (bind p k) w =
  match outcome answer effect p w with
  | Returned a => outcome answer effect (k a) (final answer effect p w)
  | Thrown e => Thrown e
  | Pending => Pending
  end.
Proof.
  revert w; induction p as [a | e | | c h IH]; intros w; cbn; auto.
Qed.

Lemma final_bind {A B : Type} (p : Prog resp A) (k : A -> Prog resp B) w :
  final answer effect (bind p k) w =
  match outcome answer effect p w with
  | Returned a => final answer effect (k a) (final answer effect p w)
  | _ => final answer effect p w
  end.
Proof.
  revert w; induction p as [a | e | | c h IH]; intros w; cbn; auto.
Qed.

Lemma trace_bind {A B : Type} (p : Prog resp A) (k : A -> Prog resp B) w :
  trace answer effect (bind p k) w =
  trace answer effect p w ++
  match outcome answer effect p w with
  | Returned a => trace answer effect (k a) (final answer effect p w)
  | _ => []
  end.
Proof.
  revert w; induction p as [a | e | | c h IH]; intros w; cbn;
    try reflexivity.
  - now rewrite IH.
Qed.

Lemma calls_bind {A B : Type} (p : Prog resp A) (k : A -> Prog resp B) w :
  calls answer effect (bind p k) w =
  calls answer effect p w ++
  match outcome answer effect p w with
  | Returned a => calls answer effect (k a) (final answer effect p w)
  | _ => []
  end.
Proof.
  unfold calls. rewrite trace_bind, map_app.
  destruct (outcome answer effect p w); reflexivity.
Qed.
End RunLaws.

(** ** The host's paths *)

Lemma is_prefix_app (p l : list string) :
  is_prefix p l = true -> l = p ++ drop (length p) l.
Proof.
  revert l; induction p as [| x p IH]; intros [| y l]; cbn; try easy.
  intros H. apply andb_true_iff in H as [Hx Hp].
  apply String.eqb_eq in Hx. subst y. f_equal. now apply IH.
Qed.

Lemma is_prefix_app_refl (p l : list string) : is_prefix p (p ++ l) = true.
Proof.
  induction p as [| x p IH]; cbn; [reflexivity |].
  now rewrite String.eqb_refl.
Qed.

Lemma uri_under_scheme (root u : Uri) :
  uri_under root u = true -> scheme root = scheme u.
Proof.
  unfold uri_under. intros H.
  apply andb_true_iff in H as [H _]. apply andb_true_iff in H as [H _].
  now apply String.eqb_eq.
Qed.

Lemma uri_under_child (root : Uri) (name : string) :
  uri_under root (child root name) = true.
Proof.
  unfold uri_under, child; cbn.
  now rewrite !String.eqb_refl, is_prefix_app_refl.
Qed.

Lemma segments_below_child (root : Uri) (name : string) :
  segments_below root (child root name) = [name].
Proof.
  unfold segments_below, child; cbn.
  rewrite drop_app_length. reflexivity.
Qed.

(** A uri one segment below [root] is the child of that name. *)
Lemma under_one_segment (root u : Uri) (name : string) :
  uri_under root u = true -> segments_below root u = [name] ->
  u = child root name.
Proof.
  unfold uri_under, segments_below, child. destruct u as [s a p]; cbn.
  intros H Hseg.
  apply andb_true_iff in H as [H Hp]. apply andb_true_iff in H as [Hs Ha].
  apply String.eqb_eq in Hs, Ha. apply is_prefix_app in Hp.
  rewrite Hseg in Hp. now subst.
Qed.

Lemma getWorkspaceFolder_Some folders u f :
  getWorkspaceFolder folders u = Some f ->
  f ∈ folders /\ uri_under (folder_uri f) u = true.
Proof.
  revert f; induction folders as [| g rest IH]; intros f;
    cbn [getWorkspaceFolder]; [easy |].
  destruct (uri_under (folder_uri g) u) eqn:Hg.
  - destruct (getWorkspaceFolder rest u) as [b |] eqn:Hb.
    + destruct (deeper b g); intros H; simplify_eq.
      * destruct (IH f eq_refl) as [Hin Hu]. split; [now right | exact Hu].
      * split; [now left | exact Hg].
    + intros H; simplify_eq. split; [now left | exact Hg].
  - intros H. destruct (IH f H) as [Hin Hu]. split; [now right | exact Hu].
Qed.

Lemma getWorkspaceFolder_None folders u :
  getWorkspaceFolder folders u = None <->
  forall f, f ∈ folders -> uri_under (folder_uri f) u = false.
Proof.
  induction folders as [| g rest IH]; cbn [getWorkspaceFolder].
  - split; [intros _ f Hf; inversion Hf | reflexivity].
  - destruct (uri_under (folder_uri g) u) eqn:Hg.
    + split.
      * destruct (getWorkspaceFolder rest u) as [b |]; [| easy].
        now destruct (deeper b g).
      * intros H. specialize (H g (list_elem_of_here _ _)). congruence.
    + rewrite IH. split.
      * intros H f Hf. apply elem_of_cons in Hf as [-> | Hf]; auto.
      * intros H f Hf. apply H. now right.
Qed.


Lemma filter_empty {A : Type} (f : A -> bool) (l : list A) :
  List.filter f l = [] <-> forall x, x ∈ l -> f x = false.
Proof.
  induction l as [| a l IH]; cbn.
  - split; [intros _ x Hx; inversion Hx | reflexivity].
  - destruct (f a) eqn:Ha.
    + split; [discriminate |].
      intros H. specialize (H a (list_elem_of_here _ _)). congruence.
    + rewrite IH. split.
      * intros H x Hx. apply elem_of_cons in Hx as [-> | Hx]; auto.
      * intros H x Hx. apply H. now right.
Qed.

Lemma take_one_empty {A : Type} (l : list A) : take 1 l = [] <-> l = [].
Proof. destruct l; cbn; split; congruence. Qed.

(** ** The marker search of the locator *)

Lemma marker_alternatives :
  glob_alternatives marker_glob = [["workflow_settings.yaml"]; ["dataform.json"]].
Proof. vm_compute. reflexivity. Qed.

Lemma marker_matches (folder : WorkspaceFolder) (u : Uri) :
  pattern_matches (mkRelativePattern folder marker_glob) u = true <->
  u = child (folder_uri folder) "workflow_settings.yaml"
  \/ u = child (folder_uri folder) "dataform.json".
Proof.
  unfold pattern_matches, glob_matches; cbn [pattern_base pattern].
  rewrite marker_alternatives. cbn [existsb]. unfold string_list_eqb.
  rewrite orb_false_r, andb_true_iff, orb_true_iff, !bool_decide_eq_true.
  split.
  - intros [Hu [Hs | Hs]]; [left | right]; now apply under_one_segment.
  - intros [-> | ->]; rewrite uri_under_child, segments_below_child; auto.
Qed.

Lemma marker_search_empty (e : Environment) (folder : WorkspaceFolder)
    (token : option CancellationToken) :
  cancelled token = false ->
  findFiles e (mkRelativePattern folder marker_glob) ExcludeNull (Some 1)
    token = []
  <->
  (child (folder_uri folder) "workflow_settings.yaml" ∉ files e)
  /\ (child (folder_uri folder) "dataform.json" ∉ files e).
Proof.
  intros Hlive. unfold findFiles. rewrite Hlive.
  rewrite take_one_empty, filter_empty.
  cbn [excluded negb]. split.
  - intros H. split; intros Hin; apply H in Hin;
      rewrite andb_true_r in Hin;
      apply not_true_iff_false in Hin; apply Hin, marker_matches; auto.
  - intros [Hy Hj] u Hu. rewrite andb_true_r.
    apply not_true_iff_false. intros Hm.
    apply marker_matches in Hm as [-> | ->]; contradiction.
Qed.

(** ** The project locator *)

Section Locator.
Variable w : World.
Variable token : option CancellationToken.

Local Abbreviation locate := (getProjectDirPath token).

(** The locator only reads the host. *)
Lemma locator_final : final answer effect locate w = w.
Proof.
  unfold getProjectDirPath, call, perform, deref.
  cbn [final bind answer effect].
  destruct (activeTextEditor (env w)) as [editor |]; [| reflexivity].
  cbn [final bind answer effect].
  destruct (getWorkspaceFolder _ _) as [folder |]; [| reflexivity].
  destruct (negb _); [reflexivity |].
  cbn [final bind answer effect await].
  now destruct (length _ =? 0).
Qed.

Lemma locator_first_call :
  exists rest, calls answer effect locate w = GetActiveTextEditor :: rest.
Proof. unfold getProjectDirPath, call, perform, calls; cbn. eauto. Qed.

Section WithEditor.
Variable editor : TextEditor.
Hypothesis active : activeTextEditor (env w) = Some editor.

Local Abbreviation doc := (doc_uri (document editor)).

Lemma locator_outcome :
  outcome answer effect locate w =
  match getWorkspaceFolder (workspaceFolders (env w)) doc with
  | None => Returned (inr NoWorkspace)
  | Some folder =>
      if negb (String.eqb (scheme (folder_uri folder)) "file")
      then Returned (inr RemoteUnsupported)
      else if length (findFiles (env w)
                        (mkRelativePattern folder marker_glob)
                        ExcludeNull (Some 1) token) =? 0
           then Returned (inr MissingProjectMarker)
           else Returned (inl (fsPath (folder_uri folder)))
  end.
Proof.
  unfold getProjectDirPath, call, perform, deref.
  cbn [outcome bind answer effect]. rewrite active.
  cbn [outcome bind answer effect].
  destruct (getWorkspaceFolder _ _) as [folder |]; [| reflexivity].
  destruct (negb _); [reflexivity |].
  cbn [outcome bind answer effect await].
  now destruct (length _ =? 0).
Qed.

Lemma locator_calls :
  calls answer effect locate w =
  GetActiveTextEditor :: GetWorkspaceFolder doc ::
  match getWorkspaceFolder (workspaceFolders (env w)) doc with
  | None => []
  | Some folder =>
      if negb (String.eqb (scheme (folder_uri folder)) "file") then []
      else [FindFiles (mkRelativePattern folder marker_glob)
              ExcludeNull (Some 1) token]
  end.
Proof.
  unfold getProjectDirPath, call, perform, deref, calls.
  cbn [trace bind answer effect map snd]. rewrite active.
  cbn [trace bind answer effect map snd].
  destruct (getWorkspaceFolder _ _) as [folder |]; [| reflexivity].
  destruct (negb _); [reflexivity |].
  cbn [trace bind answer effect await map snd].
  now destruct (length _ =? 0).
Qed.
End WithEditor.
End Locator.


(** ** Claims about the project locator *)

Section LocatorClaims.
Variable w : World.
Variable token : option CancellationToken.
Variable editor : TextEditor.
Hypothesis active : activeTextEditor (env w) = Some editor.

(** C4. When the active document lies in no opened workspace folder, the
    locator returns the [NoWorkspace] error, whatever else holds of the
    host: the check comes first and the locator makes no further call. *)
Theorem locator_no_workspace :
  (forall folder, folder ∈ workspaceFolders (env w) ->
     uri_under (folder_uri folder) (doc_uri (document editor)) = false) ->
  outcome answer effect (getProjectDirPath token) w
    = Returned (inr NoWorkspace)
  /\ calls answer effect (getProjectDirPath token) w
    = [GetActiveTextEditor; GetWorkspaceFolder (doc_uri (document editor))].
Proof.
  intros Hnone. apply getWorkspaceFolder_None in Hnone.
  rewrite (locator_outcome w token editor active),
          (locator_calls w token editor active), Hnone.
  split; reflexivity.
Qed.

(** C5. When the active document lies in a workspace folder whose scheme is
    not ["file"], the locator returns the [RemoteUnsupported] error and does
    not search for the marker files. *)
Theorem locator_remote_unsupported (folder : WorkspaceFolder) :
  folder ∈ workspaceFolders (env w) ->
  uri_under (folder_uri folder) (doc_uri (document editor)) = true ->
  scheme (folder_uri folder) <> "file" ->
  outcome answer effect (getProjectDirPath token) w
    = Returned (inr RemoteUnsupported)
  /\ (forall include exclude maxResults tok,
        FindFiles include exclude maxResults tok
          ∉ calls answer effect (getProjectDirPath token) w).
Proof.
  intros Hin Hunder Hscheme.
  rewrite (locator_outcome w token editor active),
          (locator_calls w token editor active).
  destruct (getWorkspaceFolder _ _) as [found |] eqn:Hfound.
  - apply getWorkspaceFolder_Some in Hfound as [_ Hfu].
    apply uri_under_scheme in Hfu, Hunder.
    assert (Hne : String.eqb (scheme (folder_uri found)) "file" = false).
    { apply String.eqb_neq. congruence. }
    rewrite Hne. cbn [negb]. split; [reflexivity |].
    intros include exclude maxResults tok Hcall.
    repeat (apply elem_of_cons in Hcall as [Hcall | Hcall];
            [discriminate |]).
    inversion Hcall.
  - rewrite getWorkspaceFolder_None in Hfound.
    rewrite (Hfound folder Hin) in Hunder. discriminate.
Qed.

(** C3, as the code has it.  When the workspace folder of the active
    document is local and cancellation has not been requested through the
    token of the locator, the locator returns the [MissingProjectMarker]
    error exactly when neither [workflow_settings.yaml] nor [dataform.json]
    exists directly under the root of that folder; otherwise it returns the
    file-system path of the folder. *)
Theorem locator_missing_marker_iff (folder : WorkspaceFolder) :
  getWorkspaceFolder (workspaceFolders (env w)) (doc_uri (document editor))
    = Some folder ->
  scheme (folder_uri folder) = "file" ->
  cancelled token = false ->
  let present name := child (folder_uri folder) name ∈ files (env w) in
  (outcome answer effect (getProjectDirPath token) w
     = Returned (inr MissingProjectMarker)
   <-> (~ present "workflow_settings.yaml" /\ ~ present "dataform.json"))
  /\ (present "workflow_settings.yaml" \/ present "dataform.json" ->
      outcome answer effect (getProjectDirPath token) w
        = Returned (inl (fsPath (folder_uri folder)))).
Proof.
  intros Hfolder Hfile Hlive present.
  rewrite (locator_outcome w token editor active), Hfolder, Hfile.
  cbn [String.eqb Ascii.eqb Bool.eqb negb].
  pose proof (marker_search_empty (env w) folder token Hlive) as Hsearch.
  destruct (findFiles _ _ _ _ _) as [| found others] eqn:Hfound;
    cbn [length Nat.eqb].
  - destruct Hsearch as [Hnone _]. specialize (Hnone eq_refl).
    split; [tauto |]. intros [Hy | Hj]; tauto.
  - split.
    + split; [discriminate |].
      intros Habsent. apply Hsearch in Habsent. discriminate.
    + reflexivity.
Qed.
End LocatorClaims.

(** C10. The locator begins by reading the active editor and takes its
    document.  With no active editor that read throws: the locator, and the
    format action that starts with it, end with a [TypeError] and not with
    one of the locator's error values.  After a successful locator the
    format action reads the active editor once more. *)
Theorem locator_throws_without_editor (w : World) :
  (forall token, exists rest,
      calls answer effect (getProjectDirPath token) w
        = GetActiveTextEditor :: rest)
  /\ (activeTextEditor (env w) = None ->
      (forall token,
          outcome answer effect (getProjectDirPath token) w
            = Thrown (TypeError "document"))
      /\ (forall d o token,
          outcome answer effect (provideDocumentFormattingEdits d o token) w
            = Thrown (TypeError "document")
          /\ calls answer effect (provideDocumentFormattingEdits d o token) w
            = [GetActiveTextEditor]))
  /\ (forall d o token projectDir,
        outcome answer effect (getProjectDirPath (Some token)) w
          = Returned (inl projectDir) ->
        exists before after,
          calls answer effect (provideDocumentFormattingEdits d o token) w
            = calls answer effect (getProjectDirPath (Some token)) w
              ++ GetActiveTextEditor :: after
          /\ calls answer effect (getProjectDirPath (Some token)) w
            = GetActiveTextEditor :: before).
Proof.
  split; [intros token; apply locator_first_call |].
  split.
  - intros Hnone.
    assert (Hthrows : forall token,
      outcome answer effect (getProjectDirPath token) w
        = Thrown (TypeError "document")).
    { intros token. unfold getProjectDirPath, call, perform.
      cbn [outcome bind answer]. now rewrite Hnone. }
    split; [exact Hthrows |].
    intros d o token. unfold provideDocumentFormattingEdits.
    rewrite outcome_bind, calls_bind, Hthrows. split; [reflexivity |].
    rewrite app_nil_r. unfold getProjectDirPath, call, perform, calls.
    cbn [trace bind answer map snd]. now rewrite Hnone.
  - intros d o token projectDir Hok.
    destruct (locator_first_call w (Some token)) as [before Hbefore].
    unfold provideDocumentFormattingEdits.
    rewrite calls_bind, Hok.
    unfold call, perform, calls at 2. cbn [trace bind map snd].
    eauto.
Qed.


(** ** The format action *)

Section FormatAction.
Variable w : World.
Variable _document : TextDocument.
Variable _options : FormattingOptions.
Variable token : CancellationToken.

Local Abbreviation locate := (getProjectDirPath (Some token)).
Local Abbreviation format :=
  (provideDocumentFormattingEdits _document _options token).

(** With an active editor the locator returns: a path, or one of its three
    errors as a value. *)
Lemma locator_returns (editor : TextEditor) :
  activeTextEditor (env w) = Some editor ->
  (exists dir, outcome answer effect locate w = Returned (inl dir))
  \/ outcome answer effect locate w = Returned (inr NoWorkspace)
  \/ outcome answer effect locate w = Returned (inr RemoteUnsupported)
  \/ outcome answer effect locate w = Returned (inr MissingProjectMarker).
Proof.
  intros active. rewrite (locator_outcome w _ editor active).
  destruct (getWorkspaceFolder _ _) as [folder |]; [| auto].
  destruct (negb _); [auto |].
  destruct (length _ =? 0); eauto.
Qed.

(** A locator that returns has found an active editor. *)
Lemma locator_returned_editor (r : string + Error) :
  outcome answer effect locate w = Returned r ->
  exists editor, activeTextEditor (env w) = Some editor.
Proof.
  destruct (activeTextEditor (env w)) as [editor |] eqn:active; [eauto |].
  unfold getProjectDirPath, call, perform.
  cbn [outcome bind answer]. rewrite active. discriminate.
Qed.

Lemma locator_calls_quiet :
  List.filter is_message (calls answer effect locate w) = []
  /\ List.filter is_request (calls answer effect locate w) = [].
Proof.
  destruct (activeTextEditor (env w)) as [editor |] eqn:active.
  - rewrite (locator_calls w _ editor active).
    destruct (getWorkspaceFolder _ _) as [folder |]; [| split; reflexivity].
    destruct (negb _); split; reflexivity.
  - unfold getProjectDirPath, call, perform, calls.
    cbn [trace bind answer map snd]. rewrite active. split; reflexivity.
Qed.

(** C1. The locator hands its errors on as returned values: with an active
    editor it returns, a path or one of its three errors, and does not
    throw.  When it returns an error, the format action shows that error's
    message, once, as an error message, sends no request and ends. *)
Theorem format_aborts_on_locator_error :
  (forall editor, activeTextEditor (env w) = Some editor ->
     (exists dir, outcome answer effect locate w = Returned (inl dir))
     \/ outcome answer effect locate w = Returned (inr NoWorkspace)
     \/ outcome answer effect locate w = Returned (inr RemoteUnsupported)
     \/ outcome answer effect locate w = Returned (inr MissingProjectMarker))
  /\ (forall error,
        outcome answer effect locate w = Returned (inr error) ->
        outcome answer effect format w = Returned JUndefined
        /\ calls answer effect format w
           = calls answer effect locate w
             ++ [ShowErrorMessage (message error)]
        /\ List.filter is_message (calls answer effect format w)
           = [ShowErrorMessage (message error)]
        /\ List.filter is_request (calls answer effect format w) = []
        /\ (error = NoWorkspace \/ error = RemoteUnsupported
            \/ error = MissingProjectMarker)).
Proof.
  split; [exact locator_returns |].
  intros error Herr.
  assert (Hcalls : calls answer effect format w
            = calls answer effect locate w
              ++ [ShowErrorMessage (message error)]).
  { unfold provideDocumentFormattingEdits. rewrite calls_bind, Herr.
    reflexivity. }
  destruct locator_calls_quiet as [Hmsg Hreq].
  repeat split.
  - unfold provideDocumentFormattingEdits. rewrite outcome_bind, Herr.
    reflexivity.
  - exact Hcalls.
  - rewrite Hcalls, List.filter_app, Hmsg. reflexivity.
  - rewrite Hcalls, List.filter_app, Hreq. reflexivity.
  - destruct (locator_returned_editor _ Herr) as [editor active].
    destruct (locator_returns editor active)
      as [[dir H] | [H | [H | H]]]; rewrite H in Herr; simplify_eq; auto.
Qed.

Section Success.
Variable projectDir : string.
Variable connection : LanguageClient.
Hypothesis assigned : client w = Some connection.
Hypothesis located :
  outcome answer effect locate w = Returned (inl projectDir).

(** What a successful locator has seen. *)
Lemma located_folder :
  exists editor folder,
    activeTextEditor (env w) = Some editor
    /\ getWorkspaceFolder (workspaceFolders (env w))
         (doc_uri (document editor)) = Some folder
    /\ projectDir = fsPath (folder_uri folder).
Proof.
  destruct (locator_returned_editor _ located) as [editor active].
  exists editor. pose proof located as Hloc.
  rewrite (locator_outcome w _ editor active) in Hloc.
  destruct (getWorkspaceFolder _ _) as [folder |]; [| discriminate].
  exists folder. destruct (negb _); [discriminate |].
  destruct (length _ =? 0); simplify_eq. auto.
Qed.

Lemma format_calls (editor : TextEditor) (folder : WorkspaceFolder) :
  activeTextEditor (env w) = Some editor ->
  getWorkspaceFolder (workspaceFolders (env w)) (doc_uri (document editor))
    = Some folder ->
  calls answer effect format w
  = calls answer effect locate w
    ++ [GetActiveTextEditor;
        AsRelativePath (doc_uri (document editor)) false;
        GetClient;
        SendRequest "format"
          (Some (JArray
             [JString projectDir;
              JString (relativeTo (folder_uri folder)
                         (doc_uri (document editor)))]))
          (Some token)].
Proof.
  intros active Hfolder.
  unfold provideDocumentFormattingEdits.
  rewrite calls_bind, located, locator_final. f_equal.
  unfold call, perform, calls, deref.
  cbn [trace bind answer effect map snd]. rewrite active.
  cbn [trace bind answer effect map snd]. rewrite assigned.
  cbn [trace bind answer effect map snd].
  unfold asRelativePath. rewrite Hfolder.
  destruct (server _ _ _); reflexivity.
Qed.

(** C2. When the locator succeeds, the format action sends one request and
    no other: method ["format"], payload the pair of the resolved project
    directory and the path of the active document relative to its workspace
    folder, with the token the host passed to the action.  ([client] is
    assigned: the action runs only as the provider that activation
    registers after assigning it.) *)
Theorem format_sends_one_request :
  exists editor folder,
    activeTextEditor (env w) = Some editor
    /\ getWorkspaceFolder (workspaceFolders (env w))
         (doc_uri (document editor)) = Some folder
    /\ projectDir = fsPath (folder_uri folder)
    /\ List.filter is_request (calls answer effect format w)
       = [SendRequest "format"
            (Some (JArray
               [JString projectDir;
                JString (relativeTo (folder_uri folder)
                           (doc_uri (document editor)))]))
            (Some token)].
Proof.
  destruct located_folder as (editor & folder & active & Hfolder & Hdir).
  exists editor, folder. repeat split; try assumption.
  rewrite (format_calls editor folder active Hfolder), List.filter_app.
  destruct locator_calls_quiet as [_ ->]. reflexivity.
Qed.

(** C9, as the code has it.  When the locator succeeds, the format action
    awaits the reply to its request and drops it: it builds no edits from
    it and does not hand it on.  It ends with [undefined] when the request
    is answered, whatever the answer, and otherwise as the request does. *)
Theorem format_drops_response :
  exists params,
    last (calls answer effect format w)
      = Some (SendRequest "format" params (Some token))
    /\ outcome answer effect format w
       = match server (env w) "format" params with
         | Resolved _ => Returned JUndefined
         | Rejected e => Thrown e
         | NeverSettles => Pending
         end.
Proof.
  destruct located_folder as (editor & folder & active & Hfolder & Hdir).
  exists (Some (JArray
            [JString projectDir;
             JString (relativeTo (folder_uri folder)
                        (doc_uri (document editor)))])).
  split.
  - rewrite (format_calls editor folder active Hfolder).
    rewrite last_app. reflexivity.
  - unfold provideDocumentFormattingEdits.
    rewrite outcome_bind, located, locator_final.
    unfold call, perform, deref.
    cbn [outcome bind answer effect]. rewrite active.
    cbn [outcome bind answer effect]. rewrite assigned.
    cbn [outcome bind answer effect].
    unfold asRelativePath. rewrite Hfolder.
    destruct (server _ _ _); reflexivity.
Qed.
End Success.
End FormatAction.


(** ** Activation, part by part *)

Ltac run_host :=
  cbn [trace outcome final bind await deref settle
       aanswer aeffect answer effect
       assign_client set_configuration set_clientState
       set_notificationHandlers set_commands set_formattingProviders
       set_subscriptions
       env configuration client clientState notificationHandlers commands
       formattingProviders subscriptions map fst snd].

(** Runs on, using what [H] says of the host. *)
Ltac run_with H := repeat (progress (run_host; rewrite ?H)).

Lemma Forall_calls {C W : Type} (P : W * C -> Prop) (Q : C -> Prop)
    (t : list (W * C)) :
  (forall step, Q (snd step) -> P step) ->
  Forall Q (map snd t) -> Forall P t.
Proof.
  intros HQP. induction t as [| step t IH]; cbn; intros H.
  - constructor.
  - inversion H; subst. constructor; auto.
Qed.

Section Launch.
Variable context : ExtensionContext.
Variable w : World.

Local Abbreviation launched := (final aanswer aeffect (launch context) w).

Lemma launch_outcome :
  outcome aanswer aeffect (launch context) w = Returned tt.
Proof. reflexivity. Qed.

Lemma launch_calls :
  exists c,
    calls aanswer aeffect (launch context) w =
    [CreateFileSystemWatcher "**/.clientrc";
     AssignClient c;
     RegisterCommand "dataform.compile" compile_callback;
     RegisterDocumentFormattingEditProvider "sqlx"
       provideDocumentFormattingEdits;
     PushSubscriptions
       [CommandRegistration "dataform.compile"; FormatterRegistration "sqlx"];
     Host GetClient;
     ClientStart]
    /\ client launched = Some c.
Proof. eexists. split; reflexivity. Qed.

Lemma launch_client_state : clientState launched = Starting.
Proof. reflexivity. Qed.

Lemma launch_handlers : notificationHandlers launched = ∅.
Proof. reflexivity. Qed.

Lemma launch_env : env launched = env w.
Proof. reflexivity. Qed.

Lemma launch_configuration : configuration launched = configuration w.
Proof. reflexivity. Qed.

Lemma launch_formatter :
  formattingProviders launched !! "sqlx" = Some provideDocumentFormattingEdits.
Proof. apply lookup_insert_eq. Qed.
End Launch.

Section AfterLaunch.
Variable v : World.
Variable connection : LanguageClient.
Hypothesis assigned : client v = Some connection.

Lemma ready_outcome :
  clientState v = Starting ->
  outcome aanswer aeffect (on_client ClientOnReady) v
  = Returned (handshake (env v)).
Proof.
  intros Hstate. unfold on_client, acall, perform. run_host.
  rewrite assigned. run_host. now rewrite Hstate.
Qed.

Lemma ready_final :
  clientState v = Starting ->
  final aanswer aeffect (on_client ClientOnReady) v
  = set_clientState (settle (handshake (env v))) v.
Proof.
  intros Hstate. unfold on_client, acall, perform. run_host.
  rewrite assigned. run_host. now rewrite Hstate.
Qed.

Lemma ready_calls :
  calls aanswer aeffect (on_client ClientOnReady) v
  = [Host GetClient; ClientOnReady].
Proof.
  unfold calls, on_client, acall, perform. run_host.
  rewrite assigned. reflexivity.
Qed.

Lemma relay_outcome : outcome aanswer aeffect relay v = Returned tt.
Proof.
  unfold relay, on_client, acall, perform. run_with assigned.
  reflexivity.
Qed.

Lemma relay_final :
  final aanswer aeffect relay v
  = set_notificationHandlers
      (<["success" := on_success]>
         (<["info" := on_info]>
            (<["error" := on_error]> (notificationHandlers v)))) v.
Proof.
  unfold relay, on_client, acall, perform. run_with assigned.
  reflexivity.
Qed.

(** The handlers are registered one after the other, on an unchanged
    client. *)
Lemma relay_trace :
  Forall (fun step => clientState (fst step) = clientState v
                      /\ env (fst step) = env v)
         (trace aanswer aeffect relay v).
Proof.
  unfold relay, on_client, acall, perform. run_with assigned.
  repeat (constructor; [split; reflexivity |]). constructor.
Qed.

Lemma relay_calls :
  calls aanswer aeffect relay v
  = [Host GetClient; ClientOnNotification "error" on_error;
     Host GetClient; ClientOnNotification "info" on_info;
     Host GetClient; ClientOnNotification "success" on_success].
Proof.
  unfold calls, relay, on_client, acall, perform. run_with assigned.
  reflexivity.
Qed.
End AfterLaunch.

(** The advisory, in each of its cases. *)
Section Recommend.
Variable v : World.

Local Abbreviation flag :=
  (getConfiguration (configuration v) "dataform" "recommendYamlExtension").
Local Abbreviation installed := ("redhat.vscode-yaml" ∈ extensions (env v)).
Local Abbreviation choice :=
  (picked (env v) ["Install"; "Don't show again"]).

Lemma recommend_disabled :
  truthy flag = false ->
  calls aanswer aeffect recommend v
    = [Host (GetConfiguration "dataform" "recommendYamlExtension")]
  /\ final aanswer aeffect recommend v = v.
Proof.
  intros Hflag. unfold calls, recommend, acall, perform. run_host.
  rewrite Hflag. split; reflexivity.
Qed.

Lemma recommend_installed :
  truthy flag = true -> installed ->
  calls aanswer aeffect recommend v
    = [Host (GetConfiguration "dataform" "recommendYamlExtension");
       Host (GetExtension "redhat.vscode-yaml")]
  /\ final aanswer aeffect recommend v = v.
Proof.
  intros Hflag Hext. apply (bool_decide_eq_true_2 _) in Hext.
  unfold calls, recommend, acall, perform. run_host.
  rewrite Hflag. run_host. rewrite Hext. split; reflexivity.
Qed.

Lemma recommend_prompt :
  truthy flag = true -> ~ installed ->
  calls aanswer aeffect recommend v
    = [Host (GetConfiguration "dataform" "recommendYamlExtension");
       Host (GetExtension "redhat.vscode-yaml");
       Host (ShowInformationMessage advisory_text
               ["Install"; "Don't show again"])]
      ++ (if strict_eq choice "Install"
          then [Host (OpenExternal "vscode:extension/redhat.vscode-yaml")]
          else if strict_eq choice "Don't show again"
          then [Host (UpdateConfiguration "dataform"
                        "recommendYamlExtension" (JBool false) Global)]
          else [])
  /\ final aanswer aeffect recommend v =
       (if strict_eq choice "Install" then v
        else if strict_eq choice "Don't show again"
        then set_configuration
               (updateConfiguration (configuration v) "dataform"
                  "recommendYamlExtension" (JBool false) Global) v
        else v).
Proof.
  intros Hflag Hext. apply (bool_decide_eq_false_2 _) in Hext.
  unfold calls, recommend, acall, perform. run_host.
  rewrite Hflag. run_host. rewrite Hext. run_host.
  unfold message_reply, picked.
  destruct (userPick (env v)) as [i | |]; run_host; cbn [strict_eq];
    [| split; reflexivity | split; reflexivity].
  destruct (strict_eq _ "Install"); run_host;
    [| destruct (strict_eq _ "Don't show again"); run_host];
    repeat split; reflexivity.
Qed.

Lemma recommend_no_registration :
  Forall (fun c => is_registration c = false)
         (calls aanswer aeffect recommend v).
Proof.
  destruct (truthy flag) eqn:Hflag.
  - destruct (decide installed) as [Hext | Hext].
    + destruct (recommend_installed Hflag Hext) as [-> _].
      repeat constructor.
    + destruct (recommend_prompt Hflag Hext) as [-> _].
      destruct (strict_eq choice "Install");
        [| destruct (strict_eq choice "Don't show again")];
        repeat constructor.
  - destruct (recommend_disabled Hflag) as [-> _]. repeat constructor.
Qed.
End Recommend.


(** ** Activation as a whole *)

Section Activate.
Variable context : ExtensionContext.
Variable w : World.

Local Abbreviation launched := (final aanswer aeffect (launch context) w).
Local Abbreviation settled :=
  (set_clientState (settle (handshake (env w))) launched).
Local Abbreviation relayed := (final aanswer aeffect relay settled).

Lemma settled_client : exists c, client settled = Some c.
Proof. eexists. reflexivity. Qed.

Lemma activate_trace :
  trace aanswer aeffect (activate context) w
  = trace aanswer aeffect (launch context) w
    ++ trace aanswer aeffect (on_client ClientOnReady) launched
    ++ match handshake (env w) with
       | Resolved _ =>
           trace aanswer aeffect relay settled
           ++ trace aanswer aeffect recommend relayed
       | _ => []
       end.
Proof.
  destruct (launch_calls context w) as (c & _ & Hclient).
  destruct settled_client as [c' Hclient'].
  unfold activate.
  rewrite trace_bind, launch_outcome. f_equal.
  rewrite trace_bind, (ready_outcome _ c Hclient (launch_client_state _ _)).
  rewrite (ready_final _ c Hclient (launch_client_state _ _)), launch_env.
  f_equal.
  destruct (handshake (env w)) as [[] | e |]; cbn [await bind trace];
    [| reflexivity | reflexivity].
  rewrite trace_bind, (relay_outcome _ c' Hclient'). reflexivity.
Qed.

Lemma activate_calls :
  calls aanswer aeffect (activate context) w
  = calls aanswer aeffect (launch context) w
    ++ [Host GetClient; ClientOnReady]
    ++ match handshake (env w) with
       | Resolved _ =>
           calls aanswer aeffect relay settled
           ++ calls aanswer aeffect recommend relayed
       | _ => []
       end.
Proof.
  destruct (launch_calls context w) as (c & _ & Hclient).
  unfold calls at 1. rewrite activate_trace, !map_app.
  fold (calls aanswer aeffect (launch context) w).
  fold (calls aanswer aeffect (on_client ClientOnReady) launched).
  rewrite (ready_calls _ c Hclient).
  destruct (handshake (env w)); [rewrite map_app |..]; reflexivity.
Qed.

Lemma activate_final :
  final aanswer aeffect (activate context) w
  = match handshake (env w) with
    | Resolved _ => final aanswer aeffect recommend relayed
    | _ => settled
    end.
Proof.
  destruct (launch_calls context w) as (c & _ & Hclient).
  destruct settled_client as [c' Hclient'].
  unfold activate.
  rewrite final_bind, launch_outcome.
  rewrite final_bind, (ready_outcome _ c Hclient (launch_client_state _ _)).
  rewrite (ready_final _ c Hclient (launch_client_state _ _)), launch_env.
  destruct (handshake (env w)) as [[] | e |]; cbn [await bind final];
    [| reflexivity | reflexivity].
  rewrite final_bind, (relay_outcome _ c' Hclient'). reflexivity.
Qed.

(** The advisory leaves the client and its handlers as they are. *)
Lemma recommend_keeps_client (v : World) :
  notificationHandlers (final aanswer aeffect recommend v)
    = notificationHandlers v
  /\ client (final aanswer aeffect recommend v) = client v.
Proof.
  destruct (truthy (getConfiguration (configuration v)
                      "dataform" "recommendYamlExtension")) eqn:Hflag.
  - destruct (decide ("redhat.vscode-yaml" ∈ extensions (env v)))
      as [Hext | Hext].
    + destruct (recommend_installed v Hflag Hext) as [_ ->]. auto.
    + destruct (recommend_prompt v Hflag Hext) as [_ ->].
      destruct (strict_eq _ "Install");
        [| destruct (strict_eq _ "Don't show again")]; auto.
  - destruct (recommend_disabled v Hflag) as [_ ->]. auto.
Qed.

Lemma activate_handlers :
  handshake (env w) = Resolved tt ->
  notificationHandlers (final aanswer aeffect (activate context) w)
  = <["success" := on_success]>
      (<["info" := on_info]> (<["error" := on_error]> ∅)).
Proof.
  intros Hready. destruct settled_client as [c Hclient].
  destruct (recommend_keeps_client relayed) as [Hkeep _].
  pose proof (relay_final _ c Hclient) as Hrelay.
  rewrite activate_final. rewrite Hready in *. cbv beta iota.
  rewrite Hkeep, Hrelay. reflexivity.
Qed.

(** Activation binds [client], so that the format action it registers finds
    it assigned. *)
Lemma activate_assigns_client :
  exists c, client (final aanswer aeffect (activate context) w) = Some c.
Proof.
  destruct settled_client as [c Hclient].
  assert (Hrelayed : client relayed = Some c)
    by (rewrite (relay_final _ c Hclient); exact Hclient).
  destruct (recommend_keeps_client relayed) as [_ Hkeep].
  rewrite Hrelayed in Hkeep.
  rewrite activate_final. revert Hclient Hkeep.
  destruct (handshake (env w)); eauto.
Qed.
End Activate.

(** C7. In every run of activation, each notification handler is registered
    on a client that is running, its handshake completed; the call that
    waits for readiness precedes every registration; and when the handshake
    does not complete, no handler is registered at all. *)
Theorem handlers_registered_after_ready (context : ExtensionContext)
    (w : World) :
  Forall (fun step =>
            is_registration (snd step) = true ->
            clientState (fst step) = Running
            /\ handshake (env (fst step)) = Resolved tt)
         (trace aanswer aeffect (activate context) w)
  /\ (exists before after,
        calls aanswer aeffect (activate context) w
          = before ++ ClientOnReady :: after
        /\ List.filter is_registration before = [])
  /\ (handshake (env w) <> Resolved tt ->
      List.filter is_registration
        (calls aanswer aeffect (activate context) w) = []).
Proof.
  destruct (launch_calls context w) as (c & Hlaunch & Hclient).
  destruct (settled_client context w) as [c' Hclient'].
  assert (Hquiet : forall t : list (World * ActCall),
            Forall (fun c => is_registration c = false) (map snd t) ->
            Forall (fun step =>
                      is_registration (snd step) = true ->
                      clientState (fst step) = Running
                      /\ handshake (env (fst step)) = Resolved tt) t).
  { intros t. apply Forall_calls. intros step H. congruence. }
  split; [| split].
  - rewrite activate_trace. repeat apply Forall_app_2.
    + apply Hquiet. fold (calls aanswer aeffect (launch context) w).
      rewrite Hlaunch. repeat constructor.
    + apply Hquiet.
      fold (calls aanswer aeffect (on_client ClientOnReady)
              (final aanswer aeffect (launch context) w)).
      rewrite (ready_calls _ c Hclient). repeat constructor.
    + destruct (handshake (env w)) as [[] | e |] eqn:Hready;
        [| constructor | constructor].
      apply Forall_app_2.
      * eapply Forall_impl; [apply (relay_trace _ c' Hclient') |].
        intros step [Hstate Henv] _. rewrite Hstate, Henv.
        cbn [env clientState set_clientState settle].
        rewrite launch_env. auto.
      * apply Hquiet. apply recommend_no_registration.
  - rewrite activate_calls, Hlaunch.
    exists [CreateFileSystemWatcher "**/.clientrc"; AssignClient c;
            RegisterCommand "dataform.compile" compile_callback;
            RegisterDocumentFormattingEditProvider "sqlx"
              provideDocumentFormattingEdits;
            PushSubscriptions
              [CommandRegistration "dataform.compile";
               FormatterRegistration "sqlx"];
            Host GetClient; ClientStart; Host GetClient].
    eexists. split; reflexivity.
  - intros Hnot. rewrite activate_calls, Hlaunch.
    destruct (handshake (env w)) as [[] | e |]; [congruence | |];
      reflexivity.
Qed.

(** C6. Once activation has seen the client ready, an emission on each of
    the three channels runs one handler, which shows one message: an error
    message for ["error"], an information message for ["info"] and for
    ["success"]. *)
Theorem notifications_relayed (context : ExtensionContext) (w v : World)
    (text : string) :
  handshake (env w) = Resolved tt ->
  notificationHandlers v
    = notificationHandlers (final aanswer aeffect (activate context) w) ->
  calls answer effect (notified "error" text v) v = [ShowErrorMessage text]
  /\ calls answer effect (notified "info" text v) v
     = [ShowInformationMessage text []]
  /\ calls answer effect (notified "success" text v) v
     = [ShowInformationMessage text []].
Proof.
  intros Hready Hsame. unfold notified.
  rewrite Hsame, (activate_handlers context w Hready).
  rewrite lookup_insert_ne, lookup_insert_ne, lookup_insert_eq by done.
  rewrite lookup_insert_ne, lookup_insert_eq by done.
  rewrite lookup_insert_eq.
  repeat split; reflexivity.
Qed.


(** ** The advisory within activation *)

Section Advisory.
Variable context : ExtensionContext.
Variable w : World.

Local Abbreviation launched := (final aanswer aeffect (launch context) w).
Local Abbreviation settled :=
  (set_clientState (settle (handshake (env w))) launched).
Local Abbreviation relayed := (final aanswer aeffect relay settled).
Local Abbreviation flag :=
  (getConfiguration (configuration w) "dataform" "recommendYamlExtension").
Local Abbreviation installed := ("redhat.vscode-yaml" ∈ extensions (env w)).
Local Abbreviation choices := ["Install"; "Don't show again"].

Lemma relayed_env : env relayed = env w.
Proof.
  destruct (settled_client context w) as [c Hclient].
  rewrite (relay_final _ c Hclient). reflexivity.
Qed.

Lemma relayed_configuration : configuration relayed = configuration w.
Proof.
  destruct (settled_client context w) as [c Hclient].
  rewrite (relay_final _ c Hclient). reflexivity.
Qed.

(** Up to the advisory, activation shows nothing. *)
Lemma activate_messages :
  List.filter is_host_message (calls aanswer aeffect (activate context) w)
  = match handshake (env w) with
    | Resolved _ =>
        List.filter is_host_message (calls aanswer aeffect recommend relayed)
    | _ => []
    end.
Proof.
  destruct (launch_calls context w) as (c & Hlaunch & _).
  destruct (settled_client context w) as [c' Hclient'].
  pose proof (relay_calls _ c' Hclient') as Hrelay.
  rewrite activate_calls, Hlaunch. revert Hrelay.
  destruct (handshake (env w)); intros Hrelay; [| reflexivity ..].
  rewrite !List.filter_app, Hrelay. reflexivity.
Qed.

(** C8. The advisory shows no prompt when the flag is disabled or the
    companion extension is installed, and then leaves the settings alone.
    When activation reaches it with the flag enabled and the extension
    absent, it shows one prompt, with the two choices.  Choosing "Don't show
    again" writes the flag as [false] in the global scope; dismissing the
    prompt leaves the settings as they were. *)
Theorem advisory_prompt :
  let shown :=
    List.filter is_host_message
      (calls aanswer aeffect (activate context) w) in
  let after := final aanswer aeffect (activate context) w in
  (truthy flag = false \/ installed ->
   shown = [] /\ configuration after = configuration w)
  /\ (handshake (env w) = Resolved tt -> truthy flag = true -> ~ installed ->
      shown = [Host (ShowInformationMessage advisory_text choices)]
      /\ length choices = 2
      /\ (picked (env w) choices = Some "Don't show again" ->
          Host (UpdateConfiguration "dataform" "recommendYamlExtension"
                  (JBool false) Global)
            ∈ calls aanswer aeffect (activate context) w
          /\ configuration after
             = updateConfiguration (configuration w) "dataform"
                 "recommendYamlExtension" (JBool false) Global
          /\ cfg_global (configuration after) !! flag_name
             = Some (JBool false))
      /\ (picked (env w) choices = None ->
          configuration after = configuration w)).
Proof.
  intros shown after. subst shown after.
  rewrite activate_messages, activate_final.
  pose proof relayed_env as Henv.
  pose proof relayed_configuration as Hcfg.
  split.
  - intros Hquiet.
    assert (Hrun :
      List.filter is_host_message (calls aanswer aeffect recommend relayed)
        = []
      /\ final aanswer aeffect recommend relayed = relayed).
    { destruct (truthy flag) eqn:Hflag.
      - destruct Hquiet as [Hquiet | Hext]; [discriminate |].
        rewrite <- Hcfg in Hflag. rewrite <- Henv in Hext.
        destruct (recommend_installed _ Hflag Hext) as [-> ->]. auto.
      - rewrite <- Hcfg in Hflag.
        destruct (recommend_disabled _ Hflag) as [-> ->]. auto. }
    revert Hrun Hcfg.
    destruct (handshake (env w)); intros [Hshown Hfinal] Hcfg.
    + rewrite Hshown, Hfinal. split; [reflexivity | exact Hcfg].
    + split; reflexivity.
    + split; reflexivity.
  - intros Hready Hflag Hext.
    rewrite activate_calls.
    rewrite <- Hcfg in Hflag. rewrite <- Henv in Hext.
    destruct (recommend_prompt _ Hflag Hext) as [Hcalls Hfinal].
    rewrite Henv in Hcalls, Hfinal.
    revert Hcalls Hfinal Hcfg. rewrite Hready. intros Hcalls Hfinal Hcfg.
    rewrite Hcalls, Hfinal.
    split; [| split; [reflexivity | split]].
    + destruct (strict_eq _ "Install");
        [| destruct (strict_eq _ "Don't show again")]; reflexivity.
    + intros Hpick. rewrite Hpick. cbn [strict_eq].
      change ("Don't show again" =? "Install")%string with false.
      change ("Don't show again" =? "Don't show again")%string with true.
      cbv beta iota. cbn [configuration set_configuration].
      rewrite Hcfg. split; [| split].
      * rewrite !elem_of_app. right. right. right. right.
        apply list_elem_of_here.
      * reflexivity.
      * apply lookup_insert_eq.
    + intros Hpick. rewrite Hpick. cbn [strict_eq]. exact Hcfg.
Qed.
End Advisory.

(** ** The claims on the sample hosts *)

Lemma format_aborts_on_locator_error_witness :
  outcome answer effect (getProjectDirPath (Some (Token 7 false))) bare_world
    = Returned (inr MissingProjectMarker)
  /\ outcome answer effect
       (provideDocumentFormattingEdits sample_document sample_options
          (Token 7 false)) bare_world
     = Returned JUndefined
  /\ List.filter is_message
       (calls answer effect
          (provideDocumentFormattingEdits sample_document sample_options
             (Token 7 false)) bare_world)
     = [ShowErrorMessage (message MissingProjectMarker)]
  /\ List.filter is_request
       (calls answer effect
          (provideDocumentFormattingEdits sample_document sample_options
             (Token 7 false)) bare_world)
     = [].
Proof.
  assert (H : outcome answer effect (getProjectDirPath (Some (Token 7 false)))
                bare_world = Returned (inr MissingProjectMarker))
    by (vm_compute; reflexivity).
  split; [exact H |].
  destruct (format_aborts_on_locator_error bare_world sample_document
              sample_options (Token 7 false)) as [_ Haborts].
  destruct (Haborts MissingProjectMarker H) as (Hout & _ & Hmsg & Hreq & _).
  auto.
Defined.

Lemma format_sends_one_request_witness :
  client project_world = Some sample_client
  /\ outcome answer effect (getProjectDirPath (Some (Token 7 false))) project_world
     = Returned (inl "/home/me/project")
  /\ exists editor folder,
       activeTextEditor (env project_world) = Some editor
       /\ getWorkspaceFolder (workspaceFolders (env project_world))
            (doc_uri (document editor)) = Some folder
       /\ "/home/me/project" = fsPath (folder_uri folder)
       /\ List.filter is_request
            (calls answer effect
               (provideDocumentFormattingEdits sample_document sample_options
                  (Token 7 false)) project_world)
          = [SendRequest "format"
               (Some (JArray
                  [JString "/home/me/project";
                   JString (relativeTo (folder_uri folder)
                              (doc_uri (document editor)))]))
               (Some (Token 7 false))].
Proof.
  assert (H : outcome answer effect (getProjectDirPath (Some (Token 7 false)))
                project_world = Returned (inl "/home/me/project"))
    by (vm_compute; reflexivity).
  split; [reflexivity | split; [exact H |]].
  exact (format_sends_one_request project_world sample_document
           sample_options (Token 7 false) "/home/me/project" sample_client
           eq_refl H).
Defined.

Lemma locator_missing_marker_iff_witness :
  activeTextEditor (env project_world)
    = Some (mkTextEditor sample_document)
  /\ scheme (folder_uri project_folder) = "file"
  /\ cancelled (Some (Token 7 false)) = false
  /\ outcome answer effect (getProjectDirPath (Some (Token 7 false)))
       project_world
     = Returned (inl (fsPath (folder_uri project_folder))).
Proof.
  split; [reflexivity | split; [reflexivity | split; [reflexivity |]]].
  apply (locator_missing_marker_iff project_world (Some (Token 7 false))
           (mkTextEditor sample_document) eq_refl project_folder);
    [vm_compute; reflexivity | reflexivity | reflexivity |].
  right. vm_compute. apply list_elem_of_here.
Defined.

(** C3, as stated, fails on the sample project when cancellation has been
    requested through the token: the active document lies in a local
    workspace folder, [dataform.json] exists directly under its root, and
    the locator returns the [MissingProjectMarker] error. *)
Lemma locator_cancelled_search_misses_marker :
  activeTextEditor (env project_world) = Some (mkTextEditor sample_document)
  /\ getWorkspaceFolder (workspaceFolders (env project_world)) sample_doc
     = Some project_folder
  /\ scheme (folder_uri project_folder) = "file"
  /\ child (folder_uri project_folder) "dataform.json"
       ∈ files (env project_world)
  /\ calls answer effect (getProjectDirPath (Some cancelled_token))
       project_world
     = [GetActiveTextEditor; GetWorkspaceFolder sample_doc;
        FindFiles (mkRelativePattern project_folder marker_glob)
          ExcludeNull (Some 1) (Some cancelled_token)]
  /\ outcome answer effect (getProjectDirPath (Some cancelled_token))
       project_world
     = Returned (inr MissingProjectMarker)
  /\ outcome answer effect (getProjectDirPath (Some cancelled_token))
       project_world
     <> Returned (inl (fsPath (folder_uri project_folder))).
Proof.
  split; [reflexivity |].
  split; [vm_compute; reflexivity |].
  split; [reflexivity |].
  split; [vm_compute; apply list_elem_of_here |].
  split; [vm_compute; reflexivity |].
  split; [vm_compute; reflexivity |].
  vm_compute. discriminate.
Qed.

Lemma locator_no_workspace_witness :
  outcome answer effect (getProjectDirPath None) stray_world
    = Returned (inr NoWorkspace).
Proof.
  apply (locator_no_workspace stray_world None
           (mkTextEditor
              (mkTextDocument (mkUri "file" "" ["tmp"; "scratch.sqlx"])
                 "sqlx")) eq_refl).
  apply Forall_forall. repeat constructor.
Defined.

Lemma locator_remote_unsupported_witness :
  remote_folder ∈ workspaceFolders (env remote_world)
  /\ scheme (folder_uri remote_folder) <> "file"
  /\ outcome answer effect (getProjectDirPath None) remote_world
     = Returned (inr RemoteUnsupported).
Proof.
  assert (Hin : remote_folder ∈ workspaceFolders (env remote_world))
    by (right; left).
  assert (Hscheme : scheme (folder_uri remote_folder) <> "file")
    by discriminate.
  split; [exact Hin | split; [exact Hscheme |]].
  apply (locator_remote_unsupported remote_world None
           (mkTextEditor
              (mkTextDocument
                 (mkUri "vscode-remote" "ssh" ["srv"; "project"; "a.sqlx"])
                 "sqlx")) eq_refl remote_folder Hin eq_refl Hscheme).
Defined.

Lemma notifications_relayed_witness :
  handshake (env first_run_world) = Resolved tt
  /\ calls answer effect
       (notified "success" "Compiled"
          (final aanswer aeffect (activate sample_context) first_run_world))
       (final aanswer aeffect (activate sample_context) first_run_world)
     = [ShowInformationMessage "Compiled" []].
Proof.
  split; [reflexivity |].
  apply (notifications_relayed sample_context first_run_world
           (final aanswer aeffect (activate sample_context) first_run_world)
           "Compiled" eq_refl eq_refl).
Defined.

Lemma handlers_registered_after_ready_witness :
  handshake (env stalled_world) <> Resolved tt
  /\ List.filter is_registration
       (calls aanswer aeffect (activate sample_context) stalled_world) = [].
Proof.
  assert (H : handshake (env stalled_world) <> Resolved tt) by discriminate.
  split; [exact H |].
  apply (handlers_registered_after_ready sample_context stalled_world).
  exact H.
Defined.

Lemma advisory_prompt_witness :
  handshake (env first_run_world) = Resolved tt
  /\ picked (env first_run_world) ["Install"; "Don't show again"]
     = Some "Don't show again"
  /\ List.filter is_host_message
       (calls aanswer aeffect (activate sample_context) first_run_world)
     = [Host (ShowInformationMessage advisory_text
                ["Install"; "Don't show again"])]
  /\ cfg_global
       (configuration
          (final aanswer aeffect (activate sample_context) first_run_world))
       !! flag_name
     = Some (JBool false).
Proof.
  assert (Hflag : truthy (getConfiguration (configuration first_run_world)
                            "dataform" "recommendYamlExtension") = true)
    by (vm_compute; reflexivity).
  assert (Hext : ~ "redhat.vscode-yaml" ∈ extensions (env first_run_world))
    by (intros H; inversion H).
  destruct (advisory_prompt sample_context first_run_world) as [_ Hprompt].
  destruct (Hprompt eq_refl Hflag Hext) as (Hshown & _ & Hpick & _).
  destruct (Hpick eq_refl) as (_ & _ & Hglobal).
  repeat split; assumption.
Defined.

Lemma format_drops_response_witness :
  client project_world = Some sample_client
  /\ outcome answer effect (getProjectDirPath (Some (Token 7 false))) project_world
     = Returned (inl "/home/me/project")
  /\ exists params,
       last (calls answer effect
               (provideDocumentFormattingEdits sample_document sample_options
                  (Token 7 false)) project_world)
         = Some (SendRequest "format" params (Some (Token 7 false)))
       /\ outcome answer effect
            (provideDocumentFormattingEdits sample_document sample_options
               (Token 7 false)) project_world
          = match server (env project_world) "format" params with
            | Resolved _ => Returned JUndefined
            | Rejected e => Thrown e
            | NeverSettles => Pending
            end.
Proof.
  assert (H : outcome answer effect (getProjectDirPath (Some (Token 7 false)))
                project_world = Returned (inl "/home/me/project"))
    by (vm_compute; reflexivity).
  split; [reflexivity | split; [exact H |]].
  exact (format_drops_response project_world sample_document sample_options
           (Token 7 false) "/home/me/project" sample_client eq_refl H).
Defined.

(** C9, as stated, fails on the sample project: the locator succeeds, the
    external process answers the request with a value, and the action ends
    with [undefined], not with that value. *)
Lemma format_result_is_not_response :
  outcome answer effect (getProjectDirPath (Some (Token 7 false))) project_world
    = Returned (inl "/home/me/project")
  /\ calls answer effect
       (provideDocumentFormattingEdits sample_document sample_options
          (Token 7 false)) project_world
     = calls answer effect (getProjectDirPath (Some (Token 7 false))) project_world
       ++ [GetActiveTextEditor; AsRelativePath sample_doc false; GetClient;
           SendRequest "format"
             (Some (JArray [JString "/home/me/project";
                            JString "definitions/a.sqlx"]))
             (Some (Token 7 false))]
  /\ server (env project_world) "format"
       (Some (JArray [JString "/home/me/project";
                      JString "definitions/a.sqlx"]))
     = Resolved (JString "formatted")
  /\ outcome answer effect
       (provideDocumentFormattingEdits sample_document sample_options
          (Token 7 false)) project_world
     = Returned JUndefined
  /\ outcome answer effect
       (provideDocumentFormattingEdits sample_document sample_options
          (Token 7 false)) project_world
     <> Returned (JString "formatted").
Proof.
  repeat split; try (vm_compute; reflexivity).
  vm_compute. discriminate.
Qed.

Lemma locator_throws_without_editor_witness :
  activeTextEditor (env idle_world) = None
  /\ outcome answer effect (getProjectDirPath None) idle_world
     = Thrown (TypeError "document")
  /\ outcome answer effect
       (provideDocumentFormattingEdits sample_document sample_options
          (Token 7 false)) idle_world
     = Thrown (TypeError "document").
Proof.
  destruct (locator_throws_without_editor idle_world) as (_ & Hnone & _).
  destruct (Hnone eq_refl) as [Hlocator Hformat].
  split; [reflexivity | split].
  - apply Hlocator.
  - apply Hformat.
Defined.

(** * Further properties of the adapter *)

(** ** What the locator and the format action leave alone *)

Section ReadOnly.
Variable w : World.

(** The calls of the locator, in each of its cases. *)
Lemma locator_calls_cases (token : option CancellationToken) :
  calls answer effect (getProjectDirPath token) w = [GetActiveTextEditor]
  \/ exists editor,
       activeTextEditor (env w) = Some editor
       /\ (calls answer effect (getProjectDirPath token) w
             = [GetActiveTextEditor;
                GetWorkspaceFolder (doc_uri (document editor))]
           \/ exists folder,
                getWorkspaceFolder (workspaceFolders (env w))
                  (doc_uri (document editor)) = Some folder
                /\ scheme (folder_uri folder) = "file"
                /\ calls answer effect (getProjectDirPath token) w
                   = [GetActiveTextEditor;
                      GetWorkspaceFolder (doc_uri (document editor));
                      FindFiles (mkRelativePattern folder marker_glob)
                        ExcludeNull (Some 1) token]).
Proof.
  destruct (activeTextEditor (env w)) as [editor |] eqn:active.
  - right. exists editor. split; [reflexivity |].
    rewrite (locator_calls w token editor active).
    destruct (getWorkspaceFolder _ _) as [folder |]; [| now left].
    destruct (String.eqb (scheme (folder_uri folder)) "file") eqn:Hscheme;
      cbn [negb]; [| now left].
    right. exists folder. apply String.eqb_eq in Hscheme. auto.
  - left. unfold getProjectDirPath, call, perform, calls.
    cbn [trace bind answer map snd]. now rewrite active.
Qed.

(** The locator shows nothing and sends nothing, and its search carries its
    token. *)
Lemma locator_search_token (token : option CancellationToken) :
  List.filter is_message
    (calls answer effect (getProjectDirPath token) w) = []
  /\ List.filter is_request
       (calls answer effect (getProjectDirPath token) w) = []
  /\ (forall include exclude maxResults tok,
        FindFiles include exclude maxResults tok
          ∈ calls answer effect (getProjectDirPath token) w ->
        tok = token).
Proof.
  destruct (locator_calls_cases token)
    as [-> | (editor & active & [-> | (folder & Hfolder & Hscheme & ->)])];
    (split; [reflexivity |]; split; [reflexivity |]);
    intros include exclude maxResults tok Hin;
    repeat (apply elem_of_cons in Hin as [Hin | Hin];
            [now simplify_eq |]);
    inversion Hin.
Qed.

(** X1. The locator only asks: it leaves the host as it found it, shows no
    message, sends no request and makes at most three calls.  Its one search,
    when it makes it, is for the marker glob under the document's local
    workspace folder, with no exclusion, stopping at the first match, and
    carries the token it was given. *)
Theorem locator_only_reads (token : option CancellationToken) :
  final answer effect (getProjectDirPath token) w = w
  /\ length (calls answer effect (getProjectDirPath token) w) <= 3
  /\ List.filter is_message
       (calls answer effect (getProjectDirPath token) w) = []
  /\ List.filter is_request
       (calls answer effect (getProjectDirPath token) w) = []
  /\ (forall include exclude maxResults tok,
        FindFiles include exclude maxResults tok
          ∈ calls answer effect (getProjectDirPath token) w ->
        pattern include = marker_glob
        /\ exclude = ExcludeNull /\ maxResults = Some 1 /\ tok = token
        /\ scheme (folder_uri (pattern_base include)) = "file"
        /\ exists editor,
             activeTextEditor (env w) = Some editor
             /\ getWorkspaceFolder (workspaceFolders (env w))
                  (doc_uri (document editor)) = Some (pattern_base include)).
Proof.
  split; [apply locator_final |].
  destruct (locator_calls_cases token)
    as [-> | (editor & active & [-> | (folder & Hfolder & Hscheme & ->)])].
  - split; [cbn; lia |]. split; [reflexivity |]. split; [reflexivity |].
    intros include exclude maxResults tok Hin.
    apply list_elem_of_singleton in Hin. discriminate.
  - split; [cbn; lia |]. split; [reflexivity |]. split; [reflexivity |].
    intros include exclude maxResults tok Hin.
    repeat (apply elem_of_cons in Hin as [Hin | Hin]; [discriminate |]).
    inversion Hin.
  - split; [cbn; lia |]. split; [reflexivity |]. split; [reflexivity |].
    intros include exclude maxResults tok Hin.
    repeat (apply elem_of_cons in Hin as [Hin | Hin]; [discriminate |]).
    apply list_elem_of_singleton in Hin. simplify_eq. cbn.
    repeat split; eauto.
Qed.

Section Format.
Variable _document : TextDocument.
Variable _options : FormattingOptions.
Variable token : CancellationToken.

Local Abbreviation locate := (getProjectDirPath (Some token)).
Local Abbreviation format :=
  (provideDocumentFormattingEdits _document _options token).

(** What the format action does after the locator, in each case. *)
Lemma format_calls_cases :
  exists rest,
    calls answer effect format w = calls answer effect locate w ++ rest
    /\ final answer effect format w = w
    /\ length (List.filter is_message rest)
       + length (List.filter is_request rest) <= 1
    /\ (forall include exclude maxResults tok,
          FindFiles include exclude maxResults tok ∉ rest).
Proof.
  unfold provideDocumentFormattingEdits.
  rewrite calls_bind, final_bind, locator_final.
  destruct (outcome answer effect locate w) as [[dir | error] | e |].
  - unfold call, perform, calls, deref.
    cbn [trace final bind answer effect map snd].
    destruct (activeTextEditor (env w)) as [editor |];
      cbn [trace final bind answer effect map snd].
    + destruct (client w) as [c |];
        cbn [trace final bind answer effect map snd].
      * destruct (server _ _ _);
          cbn [trace final bind await answer effect map snd];
          (eexists; split; [reflexivity |]; split; [reflexivity |];
           split; [cbn; lia |]);
          intros include exclude maxResults tok Hin;
          repeat (apply elem_of_cons in Hin as [Hin | Hin]; [discriminate |]);
          inversion Hin.
      * eexists. split; [reflexivity |]. split; [reflexivity |].
        split; [cbn; lia |].
        intros include exclude maxResults tok Hin.
        repeat (apply elem_of_cons in Hin as [Hin | Hin]; [discriminate |]).
        inversion Hin.
    + eexists. split; [reflexivity |]. split; [reflexivity |].
      split; [cbn; lia |].
      intros include exclude maxResults tok Hin.
      repeat (apply elem_of_cons in Hin as [Hin | Hin]; [discriminate |]).
      inversion Hin.
  - eexists. split; [reflexivity |]. split; [reflexivity |].
    split; [cbn; lia |].
    intros include exclude maxResults tok Hin.
    repeat (apply elem_of_cons in Hin as [Hin | Hin]; [discriminate |]).
    inversion Hin.
  - exists []. split; [reflexivity |]. split; [reflexivity |].
    split; [cbn; lia |].
    intros include exclude maxResults tok Hin. inversion Hin.
  - exists []. split; [reflexivity |]. split; [reflexivity |].
    split; [cbn; lia |].
    intros include exclude maxResults tok Hin. inversion Hin.
Qed.

(** X2. Whatever the host and the external process do, one run of the format
    action leaves the host as it found it, and shows a message or sends a
    request, never both and never more than one; every file search made on
    its behalf carries the token of the action. *)
Theorem format_shows_or_sends_once :
  final answer effect format w = w
  /\ length (List.filter is_message (calls answer effect format w))
     + length (List.filter is_request (calls answer effect format w)) <= 1
  /\ (forall include exclude maxResults tok,
        FindFiles include exclude maxResults tok
          ∈ calls answer effect format w ->
        tok = Some token).
Proof.
  destruct format_calls_cases as (rest & -> & Hfinal & Hone & Hsearch).
  destruct (locator_search_token (Some token)) as (Hmsg & Hreq & Hfind).
  split; [exact Hfinal |]. split.
  - rewrite !List.filter_app, Hmsg, Hreq. exact Hone.
  - intros include exclude maxResults tok Hin.
    apply elem_of_app in Hin as [Hin | Hin].
    + now apply Hfind in Hin.
    + now apply Hsearch in Hin.
Qed.
End Format.
End ReadOnly.

(** ** Activation: what it registers and how it ends *)

(** Closes a goal with [H : c ∈ l], [l] a list written out that lacks [c]. *)
Ltac absent_in H :=
  repeat (apply elem_of_cons in H as [H | H]; [discriminate |]);
  inversion H.

Lemma recommend_outcome (v : World) :
  outcome aanswer aeffect recommend v
  = if awaits_answer v then Pending else Returned tt.
Proof.
  unfold awaits_answer, recommend, acall, perform. run_host.
  destruct (truthy _); [| reflexivity]. run_host.
  destruct (bool_decide _); [reflexivity |]. run_host.
  unfold message_reply, picked.
  destruct (userPick (env v)) as [i | |]; run_host; cbn [strict_eq andb negb];
    [| reflexivity | reflexivity].
  destruct (strict_eq _ "Install"); [reflexivity |].
  destruct (strict_eq _ "Don't show again"); reflexivity.
Qed.

Lemma recommend_final_cases (v : World) :
  final aanswer aeffect recommend v = v
  \/ final aanswer aeffect recommend v
     = set_configuration
         (updateConfiguration (configuration v) "dataform"
            "recommendYamlExtension" (JBool false) Global) v.
Proof.
  unfold recommend, acall, perform. run_host.
  destruct (truthy _); [| now left]. run_host.
  destruct (bool_decide _); [now left |]. run_host.
  unfold message_reply, picked.
  destruct (userPick (env v)) as [i | |]; run_host; cbn [strict_eq];
    [| now left | now left].
  destruct (strict_eq _ "Install"); [now left |].
  destruct (strict_eq _ "Don't show again"); [now right | now left].
Qed.

Lemma recommend_no_request (v : World) method params token :
  Host (SendRequest method params token)
    ∉ calls aanswer aeffect recommend v.
Proof.
  intros Hin.
  destruct (truthy (getConfiguration (configuration v)
                      "dataform" "recommendYamlExtension")) eqn:Hflag.
  - destruct (decide ("redhat.vscode-yaml" ∈ extensions (env v)))
      as [Hext | Hext].
    + destruct (recommend_installed v Hflag Hext) as [Hcalls _].
      rewrite Hcalls in Hin.
      repeat (apply elem_of_cons in Hin as [Hin | Hin]; [discriminate |]).
      inversion Hin.
    + destruct (recommend_prompt v Hflag Hext) as [Hcalls _].
      rewrite Hcalls in Hin.
      destruct (strict_eq _ "Install");
        [| destruct (strict_eq _ "Don't show again")];
        repeat (apply elem_of_cons in Hin as [Hin | Hin]; [discriminate |]);
        inversion Hin.
  - destruct (recommend_disabled v Hflag) as [Hcalls _].
    rewrite Hcalls in Hin.
    repeat (apply elem_of_cons in Hin as [Hin | Hin]; [discriminate |]).
    inversion Hin.
Qed.

(** What the handlers and the advisory leave as it was. *)
Lemma after_ready_frame (v : World) (c : LanguageClient) :
  client v = Some c ->
  let v' := final aanswer aeffect recommend (final aanswer aeffect relay v) in
  commands v' = commands v
  /\ formattingProviders v' = formattingProviders v
  /\ subscriptions v' = subscriptions v
  /\ client v' = client v
  /\ clientState v' = clientState v
  /\ env v' = env v.
Proof.
  intros Hclient v'. subst v'.
  destruct (recommend_final_cases (final aanswer aeffect relay v))
    as [-> | ->];
    rewrite (relay_final v c Hclient); repeat split; reflexivity.
Qed.

Section ActivateFrame.
Variable context : ExtensionContext.
Variable w : World.

Local Abbreviation launched := (final aanswer aeffect (launch context) w).
Local Abbreviation settled :=
  (set_clientState (settle (handshake (env w))) launched).
Local Abbreviation relayed := (final aanswer aeffect relay settled).
Local Abbreviation after := (final aanswer aeffect (activate context) w).

Lemma activate_outcome :
  outcome aanswer aeffect (activate context) w
  = match handshake (env w) with
    | Resolved _ => if awaits_answer w then Pending else Returned tt
    | Rejected e => Thrown e
    | NeverSettles => Pending
    end.
Proof.
  assert (Hsame : awaits_answer relayed = awaits_answer w).
  { unfold awaits_answer.
    now rewrite (relayed_env context w), (relayed_configuration context w). }
  revert Hsame.
  destruct (launch_calls context w) as (c & _ & Hclient).
  destruct (settled_client context w) as [c' Hclient'].
  unfold activate.
  rewrite outcome_bind, launch_outcome.
  rewrite outcome_bind, (ready_outcome _ c Hclient (launch_client_state _ _)).
  rewrite (ready_final _ c Hclient (launch_client_state _ _)), launch_env.
  revert Hclient'.
  destruct (handshake (env w)) as [[] | e |]; intros Hclient' Hsame;
    cbn [await bind outcome]; [| reflexivity | reflexivity].
  rewrite outcome_bind, (relay_outcome _ c' Hclient'), recommend_outcome.
  now rewrite Hsame.
Qed.

Lemma activate_frame :
  commands after = <["dataform.compile" := compile_callback]> (commands w)
  /\ formattingProviders after
     = <["sqlx" := provideDocumentFormattingEdits]> (formattingProviders w)
  /\ subscriptions after
     = subscriptions w
       ++ [CommandRegistration "dataform.compile";
           FormatterRegistration "sqlx"]
  /\ (exists c, client after = Some c)
  /\ clientState after = settle (handshake (env w))
  /\ env after = env w.
Proof.
  destruct (settled_client context w) as [c Hclient].
  pose proof (after_ready_frame settled c Hclient) as Hframe.
  rewrite activate_final. revert Hframe Hclient.
  destruct (handshake (env w)) as [[] | e |]; cbv zeta;
    intros Hframe Hclient.
  - destruct Hframe as (-> & -> & -> & -> & -> & ->).
    repeat split; try reflexivity. eauto.
  - repeat split; try reflexivity. eauto.
  - repeat split; try reflexivity. eauto.
Qed.

Lemma activate_no_request method params token :
  Host (SendRequest method params token)
    ∉ calls aanswer aeffect (activate context) w.
Proof.
  destruct (launch_calls context w) as (c & Hlaunch & _).
  destruct (settled_client context w) as [c' Hclient'].
  pose proof (relay_calls _ c' Hclient') as Hrelay.
  pose proof (recommend_no_request relayed method params token) as Hquiet.
  rewrite activate_calls, Hlaunch. revert Hrelay Hquiet.
  destruct (handshake (env w)); intros Hrelay Hquiet Hin;
    [rewrite Hrelay in Hin |..]; rewrite !elem_of_app in Hin.
  - destruct Hin as [Hin | [Hin | [Hin | Hin]]];
      [absent_in Hin .. | exact (Hquiet Hin)].
  - destruct Hin as [Hin | [Hin | Hin]]; absent_in Hin.
  - destruct Hin as [Hin | [Hin | Hin]]; absent_in Hin.
Qed.

(** X3. Activation fails with the handshake's own reason when the wait for
    the client is rejected, and stays suspended when the handshake never
    ends.  After a completed handshake it returns, unless the advisory shows
    its prompt and the user leaves it open: then it stays suspended at the
    prompt.  The client is left in the state the handshake gives it.  Unless
    the handshake completed, no notification handler is registered, no
    message is shown and the settings are untouched. *)
Theorem activation_ends_after_handshake_and_prompt :
  outcome aanswer aeffect (activate context) w
  = match handshake (env w) with
    | Resolved _ => if awaits_answer w then Pending else Returned tt
    | Rejected e => Thrown e
    | NeverSettles => Pending
    end
  /\ clientState after = settle (handshake (env w))
  /\ (handshake (env w) <> Resolved tt ->
      notificationHandlers after = ∅
      /\ List.filter is_host_message
           (calls aanswer aeffect (activate context) w) = []
      /\ configuration after = configuration w).
Proof.
  split; [exact activate_outcome |].
  split; [apply activate_frame |].
  intros Hnot. rewrite activate_messages, activate_final.
  destruct (handshake (env w)) as [[] | e |]; [congruence | |];
    repeat split; reflexivity.
Qed.

(** X4. Before it starts the client, activation registers the compile
    command and the format action and adds their two registrations, in that
    order, to the subscriptions of the extension.  They stay registered
    however the handshake ends, and activation itself sends no request. *)
Theorem activation_registers_before_start :
  commands after !! "dataform.compile" = Some compile_callback
  /\ formattingProviders after !! "sqlx"
     = Some provideDocumentFormattingEdits
  /\ subscriptions after
     = subscriptions w
       ++ [CommandRegistration "dataform.compile";
           FormatterRegistration "sqlx"]
  /\ (exists c rest,
        calls aanswer aeffect (activate context) w
        = [CreateFileSystemWatcher "**/.clientrc";
           AssignClient c;
           RegisterCommand "dataform.compile" compile_callback;
           RegisterDocumentFormattingEditProvider "sqlx"
             provideDocumentFormattingEdits;
           PushSubscriptions
             [CommandRegistration "dataform.compile";
              FormatterRegistration "sqlx"];
           Host GetClient;
           ClientStart] ++ rest)
  /\ (forall method params token,
        Host (SendRequest method params token)
          ∉ calls aanswer aeffect (activate context) w).
Proof.
  destruct activate_frame as (Hcommands & Hproviders & Hsubs & _).
  destruct (launch_calls context w) as (c & Hlaunch & _).
  split; [rewrite Hcommands; apply lookup_insert_eq |].
  split; [rewrite Hproviders; apply lookup_insert_eq |].
  split; [exact Hsubs |].
  split; [| exact activate_no_request].
  exists c. eexists. rewrite activate_calls, Hlaunch. reflexivity.
Qed.
End ActivateFrame.

(** ** The compile command *)

Lemma compile_run (v : World) (c : LanguageClient) :
  client v = Some c ->
  outcome answer effect compile_callback v = Returned tt
  /\ calls answer effect compile_callback v
     = [GetClient; SendRequest "compile" None None]
  /\ final answer effect compile_callback v = v.
Proof.
  intros Hclient. unfold compile_callback, call, perform, calls, deref.
  cbn [outcome trace final bind answer effect map snd]. rewrite Hclient.
  repeat split; reflexivity.
Qed.

(** X5. Once an activation has seen the client ready, the client is
    running and the command registered as [dataform.compile] checks nothing
    of the editor or the workspace, sends one ["compile"] request without
    payload or token, and returns at once: it does not wait for the reply,
    so it returns even when the external process never answers or
    refuses. *)
Theorem compile_is_fire_and_forget (context : ExtensionContext) (w : World) :
  handshake (env w) = Resolved tt ->
  let after := final aanswer aeffect (activate context) w in
  clientState after = Running
  /\ commands after !! "dataform.compile" = Some compile_callback
  /\ outcome answer effect compile_callback after = Returned tt
  /\ calls answer effect compile_callback after
     = [GetClient; SendRequest "compile" None None]
  /\ final answer effect compile_callback after = after.
Proof.
  intros Hready after. subst after.
  destruct (activate_frame context w)
    as (Hcommands & _ & _ & [c Hc] & Hstate & _).
  split; [rewrite Hstate, Hready; reflexivity |].
  split; [rewrite Hcommands; apply lookup_insert_eq |].
  exact (compile_run _ c Hc).
Qed.

(** ** The advisory from one activation to the next *)

(** The flag as read after it was written to the global scope. *)
Lemma flag_after_opt_out (c : Configuration) :
  cfg_folder c !! flag_name = None ->
  getConfiguration
    (updateConfiguration c "dataform" "recommendYamlExtension"
       (JBool false) Global)
    "dataform" "recommendYamlExtension"
  = match cfg_workspace c !! flag_name with
    | Some v => v
    | None => JBool false
    end.
Proof.
  intros Hfolder. unfold getConfiguration, updateConfiguration.
  cbn [cfg_folder cfg_workspace cfg_global cfg_default].
  change (setting_name "dataform" "recommendYamlExtension") with flag_name.
  rewrite Hfolder. destruct (cfg_workspace c !! flag_name); [reflexivity |].
  now rewrite lookup_insert_eq.
Qed.

Section AdvisoryRuns.
Variable context : ExtensionContext.
Variable w : World.

Local Abbreviation launched := (final aanswer aeffect (launch context) w).
Local Abbreviation settled :=
  (set_clientState (settle (handshake (env w))) launched).
Local Abbreviation relayed := (final aanswer aeffect relay settled).
Local Abbreviation after := (final aanswer aeffect (activate context) w).
Local Abbreviation flag :=
  (getConfiguration (configuration w) "dataform" "recommendYamlExtension").
Local Abbreviation installed := ("redhat.vscode-yaml" ∈ extensions (env w)).
Local Abbreviation choices := ["Install"; "Don't show again"].
Local Abbreviation prompt :=
  (Host (ShowInformationMessage advisory_text choices)).

Lemma activate_silent :
  truthy flag = false \/ installed ->
  List.filter is_host_message (calls aanswer aeffect (activate context) w)
    = []
  /\ configuration after = configuration w.
Proof.
  intros Hquiet.
  rewrite activate_messages, activate_final.
  pose proof (relayed_env context w) as Henv.
  pose proof (relayed_configuration context w) as Hcfg.
  assert (Hrun :
    List.filter is_host_message (calls aanswer aeffect recommend relayed)
      = []
    /\ final aanswer aeffect recommend relayed = relayed).
  { destruct (truthy flag) eqn:Hflag.
    - destruct Hquiet as [Hquiet | Hext]; [discriminate |].
      rewrite <- Hcfg in Hflag. rewrite <- Henv in Hext.
      destruct (recommend_installed _ Hflag Hext) as [-> ->]. auto.
    - rewrite <- Hcfg in Hflag.
      destruct (recommend_disabled _ Hflag) as [-> ->]. auto. }
  revert Hrun Hcfg.
  destruct (handshake (env w)); intros [Hshown Hfinal] Hcfg.
  - rewrite Hshown, Hfinal. split; [reflexivity | exact Hcfg].
  - split; reflexivity.
  - split; reflexivity.
Qed.

Lemma activate_prompted :
  handshake (env w) = Resolved tt -> truthy flag = true -> ~ installed ->
  (exists c,
     calls aanswer aeffect (activate context) w
     = [CreateFileSystemWatcher "**/.clientrc";
        AssignClient c;
        RegisterCommand "dataform.compile" compile_callback;
        RegisterDocumentFormattingEditProvider "sqlx"
          provideDocumentFormattingEdits;
        PushSubscriptions
          [CommandRegistration "dataform.compile";
           FormatterRegistration "sqlx"];
        Host GetClient; ClientStart;
        Host GetClient; ClientOnReady;
        Host GetClient; ClientOnNotification "error" on_error;
        Host GetClient; ClientOnNotification "info" on_info;
        Host GetClient; ClientOnNotification "success" on_success;
        Host (GetConfiguration "dataform" "recommendYamlExtension");
        Host (GetExtension "redhat.vscode-yaml");
        prompt]
       ++ (if strict_eq (picked (env w) choices) "Install"
           then [Host (OpenExternal "vscode:extension/redhat.vscode-yaml")]
           else if strict_eq (picked (env w) choices) "Don't show again"
           then [Host (UpdateConfiguration "dataform"
                         "recommendYamlExtension" (JBool false) Global)]
           else []))
  /\ configuration after
     = (if strict_eq (picked (env w) choices) "Install"
        then configuration w
        else if strict_eq (picked (env w) choices) "Don't show again"
        then updateConfiguration (configuration w) "dataform"
               "recommendYamlExtension" (JBool false) Global
        else configuration w).
Proof.
  intros Hready Hflag Hext.
  destruct (launch_calls context w) as (c & Hlaunch & _).
  destruct (settled_client context w) as [c' Hclient'].
  pose proof (relay_calls _ c' Hclient') as Hrelay.
  pose proof (relayed_env context w) as Henv.
  pose proof (relayed_configuration context w) as Hcfg.
  rewrite <- Hcfg in Hflag. rewrite <- Henv in Hext.
  destruct (recommend_prompt _ Hflag Hext) as [Hcalls Hfinal].
  rewrite Henv in Hcalls, Hfinal.
  rewrite activate_calls, activate_final, Hlaunch.
  revert Hrelay Hcalls Hfinal Hcfg. rewrite Hready.
  intros Hrelay Hcalls Hfinal Hcfg.
  rewrite Hrelay, Hcalls, Hfinal. split.
  - exists c. reflexivity.
  - destruct (strict_eq _ "Install");
      [| destruct (strict_eq _ "Don't show again")];
      cbn [configuration set_configuration]; now rewrite ?Hcfg.
Qed.

Lemma activate_prompts_once :
  handshake (env w) = Resolved tt -> truthy flag = true -> ~ installed ->
  List.filter is_host_message (calls aanswer aeffect (activate context) w)
  = [prompt].
Proof.
  intros Hready Hflag Hext.
  destruct (activate_prompted Hready Hflag Hext) as [[c ->] _].
  destruct (strict_eq _ "Install");
    [| destruct (strict_eq _ "Don't show again")]; reflexivity.
Qed.

Lemma activate_opted_out :
  handshake (env w) = Resolved tt -> truthy flag = true -> ~ installed ->
  picked (env w) choices = Some "Don't show again" ->
  configuration after
  = updateConfiguration (configuration w) "dataform"
      "recommendYamlExtension" (JBool false) Global.
Proof.
  intros Hready Hflag Hext Hpick.
  destruct (activate_prompted Hready Hflag Hext) as [_ Hcfg].
  rewrite Hpick in Hcfg. exact Hcfg.
Qed.

(** X6. When the user answers the prompt with "Install", activation opens
    the page of the YAML extension, once, as its last call, and writes no
    setting: the flag stays as it was. *)
Theorem advisory_install_opens_page :
  handshake (env w) = Resolved tt -> truthy flag = true -> ~ installed ->
  picked (env w) choices = Some "Install" ->
  List.filter is_open_external (calls aanswer aeffect (activate context) w)
    = [Host (OpenExternal "vscode:extension/redhat.vscode-yaml")]
  /\ last (calls aanswer aeffect (activate context) w)
     = Some (Host (OpenExternal "vscode:extension/redhat.vscode-yaml"))
  /\ List.filter is_settings_write
       (calls aanswer aeffect (activate context) w) = []
  /\ configuration after = configuration w.
Proof.
  intros Hready Hflag Hext Hpick.
  destruct (activate_prompted Hready Hflag Hext) as [[c ->] ->].
  rewrite Hpick. repeat split; reflexivity.
Qed.
End AdvisoryRuns.

Section NextActivation.
Variable context next : ExtensionContext.
Variable w : World.

Local Abbreviation after := (final aanswer aeffect (activate context) w).
Local Abbreviation flag :=
  (getConfiguration (configuration w) "dataform" "recommendYamlExtension").
Local Abbreviation installed := ("redhat.vscode-yaml" ∈ extensions (env w)).
Local Abbreviation choices := ["Install"; "Don't show again"].
Local Abbreviation prompt :=
  (Host (ShowInformationMessage advisory_text choices)).

Hypothesis ready : handshake (env w) = Resolved tt.
Hypothesis absent : ~ installed.

Lemma after_env : env after = env w.
Proof. apply activate_frame. Qed.

(** X7. "Don't show again" lasts: when neither the workspace nor a folder
    has a value of its own for the flag, the flag reads [false] after the
    activation in which the user chose it, and the next activation shows no
    prompt. *)
Theorem opt_out_persists :
  truthy flag = true ->
  picked (env w) choices = Some "Don't show again" ->
  cfg_workspace (configuration w) !! flag_name = None ->
  cfg_folder (configuration w) !! flag_name = None ->
  getConfiguration (configuration after) "dataform" "recommendYamlExtension"
    = JBool false
  /\ List.filter is_host_message
       (calls aanswer aeffect (activate next) after) = [].
Proof.
  intros Hflag Hpick Hworkspace Hfolder.
  pose proof (activate_opted_out context w ready Hflag absent Hpick) as Hcfg.
  assert (Hread : getConfiguration (configuration after)
                    "dataform" "recommendYamlExtension" = JBool false).
  { rewrite Hcfg, (flag_after_opt_out _ Hfolder), Hworkspace. reflexivity. }
  split; [exact Hread |].
  apply activate_silent. left. rewrite Hread. reflexivity.
Qed.

(** X8. The opt-out is written to the global scope only.  When the workspace
    has its own, enabling value of the flag, choosing "Don't show again"
    still writes [false] globally, but the flag goes on reading as enabled
    and the next activation shows the prompt again. *)
Theorem opt_out_overridden_by_workspace (v : JsValue) :
  cfg_folder (configuration w) !! flag_name = None ->
  cfg_workspace (configuration w) !! flag_name = Some v ->
  truthy v = true ->
  picked (env w) choices = Some "Don't show again" ->
  cfg_global (configuration after) !! flag_name = Some (JBool false)
  /\ List.filter is_host_message
       (calls aanswer aeffect (activate next) after) = [prompt].
Proof.
  intros Hfolder Hworkspace Htruthy Hpick.
  assert (Hflag : truthy flag = true).
  { unfold getConfiguration.
    change (setting_name "dataform" "recommendYamlExtension") with flag_name.
    now rewrite Hfolder, Hworkspace. }
  pose proof (activate_opted_out context w ready Hflag absent Hpick) as Hcfg.
  split.
  - rewrite Hcfg. apply lookup_insert_eq.
  - apply activate_prompts_once.
    + now rewrite after_env.
    + now rewrite Hcfg, (flag_after_opt_out _ Hfolder), Hworkspace.
    + now rewrite after_env.
Qed.

End NextActivation.

Section LaterActivation.
Variable context next : ExtensionContext.
Variable w : World.

Local Abbreviation after := (final aanswer aeffect (activate context) w).
Local Abbreviation flag :=
  (getConfiguration (configuration w) "dataform" "recommendYamlExtension").
Local Abbreviation choices := ["Install"; "Don't show again"].
Local Abbreviation prompt :=
  (Host (ShowInformationMessage advisory_text choices)).

(** Only the opt-out writes a setting. *)
Lemma activate_keeps_settings :
  picked (env w) choices <> Some "Don't show again" ->
  configuration after = configuration w.
Proof.
  intros Hpick.
  destruct (truthy flag) eqn:Hflag;
    [| now apply activate_silent; left].
  destruct (decide ("redhat.vscode-yaml" ∈ extensions (env w)))
    as [Hext | Hext]; [now apply activate_silent; right |].
  destruct (handshake (env w)) as [[] | e |] eqn:Hready.
  - destruct (activate_prompted context w Hready Hflag Hext) as [_ Hcfg].
    rewrite Hcfg. destruct (strict_eq _ "Install"); [reflexivity |].
    destruct (picked (env w) choices) as [choice |]; [| reflexivity].
    cbn [strict_eq].
    destruct (String.eqb choice "Don't show again") eqn:Heq; [| reflexivity].
    apply String.eqb_eq in Heq. congruence.
  - rewrite activate_final, Hready. reflexivity.
  - rewrite activate_final, Hready. reflexivity.
Qed.

(** X9. Unless the user answers the prompt with "Don't show again", an
    activation leaves the settings as they were.  A later activation that
    finds those settings, with the flag enabled, the companion extension
    still not installed and the handshake completing, shows the prompt
    again: so it does after "Install" as long as the extension has not been
    installed, and after a dismissal. *)
Theorem prompt_returns_unless_opted_out (v : World) :
  picked (env w) choices <> Some "Don't show again" ->
  configuration after = configuration w
  /\ (configuration v = configuration after ->
      truthy flag = true ->
      handshake (env v) = Resolved tt ->
      ~ "redhat.vscode-yaml" ∈ extensions (env v) ->
      List.filter is_host_message (calls aanswer aeffect (activate next) v)
        = [prompt]).
Proof.
  intros Hpick.
  pose proof (activate_keeps_settings Hpick) as Hsame.
  split; [exact Hsame |].
  intros Hsettings Hflag Hready Hext.
  apply activate_prompts_once; [exact Hready | | exact Hext].
  now rewrite Hsettings, Hsame.
Qed.
End LaterActivation.

(** ** The notification relay *)

(** X10. The relay is one way and has three channels.  With the handlers
    that activation registers, a notification on any method runs to its end,
    makes at most one call, sends no request back and leaves the host as it
    was; on a method other than ["error"], ["info"] and ["success"] it shows
    nothing. *)
Theorem relay_is_one_way (context : ExtensionContext) (w v : World)
    (method text : string) :
  handshake (env w) = Resolved tt ->
  notificationHandlers v
    = notificationHandlers (final aanswer aeffect (activate context) w) ->
  outcome answer effect (notified method text v) v = Returned tt
  /\ final answer effect (notified method text v) v = v
  /\ length (calls answer effect (notified method text v) v) <= 1
  /\ List.filter is_request (calls answer effect (notified method text v) v)
     = []
  /\ (method <> "error" -> method <> "info" -> method <> "success" ->
      calls answer effect (notified method text v) v = []).
Proof.
  intros Hready Hsame. unfold notified.
  rewrite Hsame, (activate_handlers context w Hready).
  destruct (decide (method = "success")) as [-> | Hsuccess].
  { rewrite lookup_insert_eq. repeat split; cbn; try lia. congruence. }
  rewrite lookup_insert_ne by congruence.
  destruct (decide (method = "info")) as [-> | Hinfo].
  { rewrite lookup_insert_eq. repeat split; cbn; try lia. congruence. }
  rewrite lookup_insert_ne by congruence.
  destruct (decide (method = "error")) as [-> | Herror].
  { rewrite lookup_insert_eq. repeat split; cbn; try lia. congruence. }
  rewrite lookup_insert_ne by congruence.
  rewrite lookup_empty. repeat split; cbn; lia.
Qed.

(** ** The further properties on the sample hosts *)

Lemma activation_ends_after_handshake_and_prompt_witness :
  handshake (env failing_world) <> Resolved tt
  /\ outcome aanswer aeffect (activate sample_context) failing_world
     = Thrown (Reason (JString "spawn failed"))
  /\ notificationHandlers
       (final aanswer aeffect (activate sample_context) failing_world) = ∅.
Proof.
  assert (H : handshake (env failing_world) <> Resolved tt) by discriminate.
  destruct (activation_ends_after_handshake_and_prompt sample_context
              failing_world) as (Hout & _ & Hnot).
  destruct (Hnot H) as (Hhandlers & _).
  split; [exact H | split; [exact Hout | exact Hhandlers]].
Defined.

(** On a host whose user leaves the prompt open, activation stays suspended
    after a completed handshake. *)
Example activation_waits_at_open_prompt :
  handshake (env waiting_world) = Resolved tt
  /\ outcome aanswer aeffect (activate sample_context) waiting_world
     = Pending
  /\ last (calls aanswer aeffect (activate sample_context) waiting_world)
     = Some (Host (ShowInformationMessage advisory_text
                     ["Install"; "Don't show again"])).
Proof. repeat split; vm_compute; reflexivity. Qed.

Lemma compile_is_fire_and_forget_witness :
  handshake (env first_run_world) = Resolved tt
  /\ outcome answer effect compile_callback
       (final aanswer aeffect (activate sample_context) first_run_world)
     = Returned tt.
Proof.
  split; [reflexivity |].
  apply (compile_is_fire_and_forget sample_context first_run_world eq_refl).
Defined.

Lemma advisory_install_opens_page_witness :
  picked (env installing_world) ["Install"; "Don't show again"]
    = Some "Install"
  /\ last (calls aanswer aeffect (activate sample_context) installing_world)
     = Some (Host (OpenExternal "vscode:extension/redhat.vscode-yaml"))
  /\ configuration
       (final aanswer aeffect (activate sample_context) installing_world)
     = configuration installing_world.
Proof.
  assert (Hflag : truthy (getConfiguration (configuration installing_world)
                            "dataform" "recommendYamlExtension") = true)
    by (vm_compute; reflexivity).
  assert (Hext : ~ "redhat.vscode-yaml" ∈ extensions (env installing_world))
    by (intros H; inversion H).
  destruct (advisory_install_opens_page sample_context installing_world
              eq_refl Hflag Hext eq_refl) as (_ & Hlast & _ & Hcfg).
  split; [reflexivity | split; [exact Hlast | exact Hcfg]].
Defined.

Lemma opt_out_persists_witness :
  picked (env first_run_world) ["Install"; "Don't show again"]
    = Some "Don't show again"
  /\ List.filter is_host_message
       (calls aanswer aeffect (activate sample_context)
          (final aanswer aeffect (activate sample_context) first_run_world))
     = [].
Proof.
  assert (Hflag : truthy (getConfiguration (configuration first_run_world)
                            "dataform" "recommendYamlExtension") = true)
    by (vm_compute; reflexivity).
  assert (Hext : ~ "redhat.vscode-yaml" ∈ extensions (env first_run_world))
    by (intros H; inversion H).
  destruct (opt_out_persists sample_context sample_context first_run_world
              eq_refl Hext Hflag eq_refl eq_refl eq_refl) as [_ Hquiet].
  split; [reflexivity | exact Hquiet].
Defined.

Lemma opt_out_overridden_by_workspace_witness :
  cfg_workspace (configuration overridden_world) !! flag_name
    = Some (JBool true)
  /\ cfg_global
       (configuration
          (final aanswer aeffect (activate sample_context) overridden_world))
       !! flag_name
     = Some (JBool false)
  /\ List.filter is_host_message
       (calls aanswer aeffect (activate sample_context)
          (final aanswer aeffect (activate sample_context) overridden_world))
     = [Host (ShowInformationMessage advisory_text
                ["Install"; "Don't show again"])].
Proof.
  assert (Hext : ~ "redhat.vscode-yaml" ∈ extensions (env overridden_world))
    by (intros H; inversion H).
  assert (Hworkspace :
    cfg_workspace (configuration overridden_world) !! flag_name
      = Some (JBool true)) by (vm_compute; reflexivity).
  assert (Hfolder :
    cfg_folder (configuration overridden_world) !! flag_name = None)
    by (vm_compute; reflexivity).
  destruct (opt_out_overridden_by_workspace sample_context sample_context
              overridden_world eq_refl Hext (JBool true) Hfolder Hworkspace
              eq_refl eq_refl) as [Hglobal Hprompt].
  split; [exact Hworkspace | split; [exact Hglobal | exact Hprompt]].
Defined.

Lemma prompt_returns_unless_opted_out_witness :
  picked (env installing_world) ["Install"; "Don't show again"]
    = Some "Install"
  /\ ~ "redhat.vscode-yaml"
       ∈ extensions
           (env (final aanswer aeffect (activate sample_context)
                   installing_world))
  /\ List.filter is_host_message
       (calls aanswer aeffect (activate sample_context)
          (final aanswer aeffect (activate sample_context) installing_world))
     = [Host (ShowInformationMessage advisory_text
                ["Install"; "Don't show again"])].
Proof.
  assert (Hflag : truthy (getConfiguration (configuration installing_world)
                            "dataform" "recommendYamlExtension") = true)
    by (vm_compute; reflexivity).
  assert (Hext : ~ "redhat.vscode-yaml"
                   ∈ extensions
                       (env (final aanswer aeffect (activate sample_context)
                               installing_world)))
    by (intros H; vm_compute in H; inversion H).
  assert (Hpick : picked (env installing_world)
                    ["Install"; "Don't show again"]
                  <> Some "Don't show again") by discriminate.
  destruct (prompt_returns_unless_opted_out sample_context sample_context
              installing_world
              (final aanswer aeffect (activate sample_context)
                 installing_world) Hpick) as [_ Hprompt].
  split; [reflexivity | split; [exact Hext |]].
  apply Hprompt; [reflexivity | exact Hflag | | exact Hext].
  vm_compute. reflexivity.
Defined.

Lemma relay_is_one_way_witness :
  handshake (env first_run_world) = Resolved tt
  /\ calls answer effect
       (notified "warning" "Deprecated"
          (final aanswer aeffect (activate sample_context) first_run_world))
       (final aanswer aeffect (activate sample_context) first_run_world)
     = [].
Proof.
  destruct (relay_is_one_way sample_context first_run_world
              (final aanswer aeffect (activate sample_context)
                 first_run_world)
              "warning" "Deprecated" eq_refl eq_refl) as (_ & _ & _ & _ & H).
  split; [reflexivity |].
  apply H; discriminate.
Defined.
